(** * The penguin server's HTTP entry point and session supervisor

    A shallow embedding of [server/server_handler.go]: the dispatcher
    [handleClientHandler] and the session supervisor [handleWebsocket].

    The handler is sequential code that talks to collaborators (the HTTP
    response writer, the WebSocket upgrader, the SSH server, the loggers,
    the tunnel).  A run is modelled as a function from the server, the
    request and the answers of the collaborators (a [World]) to the new
    server state, the list of calls made on the collaborators in program
    order (a list of [Event]) and the way the handler ends ([Outcome]). *)

From Stdlib Require Import ZArith Ascii String List Bool Lia.
From stdpp Require Import base option list gmap strings.

Local Open Scope string_scope.
Local Open Scope list_scope.
Local Open Scope Z_scope.

(** ** Go strings and byte slices *)

(** [[]byte(s)]: a Go string is its bytes. *)
Definition bytes (s : string) : list Byte.byte := String.list_byte_of_string s.

(** The line feed of the Go literal ["OK\n"]. *)
Definition LF : string := String (ascii_of_nat 10) EmptyString.

(** [s[:n]] and [s[n:]] for [n] within the string (the callers below check
    the length first, as the Go functions do). *)
Fixpoint str_take (n : nat) (s : string) : string :=
  match n, s with
  | S n', String c s' => String c (str_take n' s')
  | _, _ => EmptyString
  end.

Fixpoint str_drop (n : nat) (s : string) : string :=
  match n, s with
  | S n', String _ s' => str_drop n' s'
  | _, _ => s
  end.

(** [strings.HasPrefix]:
    [len(s) >= len(prefix) && s[:len(prefix)] == prefix]. *)
Definition HasPrefix (s prefix : string) : bool :=
  (String.length prefix <=? String.length s)%nat
  && String.eqb (str_take (String.length prefix) s) prefix.

(** [strings.HasSuffix]:
    [len(s) >= len(suffix) && s[len(s)-len(suffix):] == suffix]. *)
Definition HasSuffix (s suffix : string) : bool :=
  (String.length suffix <=? String.length s)%nat
  && String.eqb (str_drop (String.length s - String.length suffix) s) suffix.

(** [fmt.Sprintf] for the one verb the handler uses, [%s], applied to
    string operands (an [error] operand is passed as its [Error()] text).
    Every call below has as many operands as verbs. *)
Fixpoint Sprintf (f : string) (args : list string) : string :=
  match f with
  | EmptyString => EmptyString
  | String "%" (String "s" rest) =>
      match args with
      | a :: args' => a +:+ Sprintf rest args'
      | [] => "%!s(MISSING)" +:+ Sprintf rest []
      end
  | String c rest => String c (Sprintf rest args)
  end.

(** ** HTTP headers ([net/http], [net/textproto]) *)

Definition is_lower (c : ascii) : bool :=
  (97 <=? nat_of_ascii c)%nat && (nat_of_ascii c <=? 122)%nat.
Definition is_upper (c : ascii) : bool :=
  (65 <=? nat_of_ascii c)%nat && (nat_of_ascii c <=? 90)%nat.
Definition is_digit (c : ascii) : bool :=
  (48 <=? nat_of_ascii c)%nat && (nat_of_ascii c <=? 57)%nat.

Definition to_upper (c : ascii) : ascii :=
  if is_lower c then ascii_of_nat (nat_of_ascii c - 32) else c.
Definition to_lower (c : ascii) : ascii :=
  if is_upper c then ascii_of_nat (nat_of_ascii c + 32) else c.

(** [validHeaderFieldByte]: the token characters of RFC 7230. *)
Definition validHeaderFieldByte (c : ascii) : bool :=
  is_lower c || is_upper c || is_digit c
  || existsb (Ascii.eqb c)
       ["!"; "#"; "$"; "%"; "&"; "'"; "*"; "+"; "-"; "."; "^"; "_"; "`"; "|"; "~"]%char.

Fixpoint str_forallb (p : ascii -> bool) (s : string) : bool :=
  match s with
  | EmptyString => true
  | String c s' => p c && str_forallb p s'
  end.

(** The rewriting loop of [canonicalMIMEHeaderKey]: upper case at the start
    and after a dash, lower case elsewhere. *)
Fixpoint canon (upper : bool) (s : string) : string :=
  match s with
  | EmptyString => EmptyString
  | String c s' =>
      let c' := if upper then to_upper c else to_lower c in
      String c' (canon (Ascii.eqb c' "-") s')
  end.

(** [textproto.CanonicalMIMEHeaderKey]: a key with a byte that is not a
    token character is returned as it is. *)
Definition CanonicalMIMEHeaderKey (s : string) : string :=
  if str_forallb validHeaderFieldByte s then canon true s else s.

(** [http.Header] is [map[string][]string]; [Get] returns the first value
    stored under the canonical form of the key, and [""] when there is
    none. *)
Definition Header_Get (h : gmap string (list string)) (key : string) : string :=
  match h !! CanonicalMIMEHeaderKey key with
  | Some (v :: _) => v
  | _ => ""
  end.

(** ** Data model *)

(** Package [share/settings].  The handler only passes these values on to
    the package's own functions. *)
Module settings.

Inductive Proto := tcp | udp.

(** Modelled from the spec: the struct [settings.Remote] (one forwarding
    rule: local host, local port, remote host, remote port, transport
    family, a reverse flag, a socks flag, a stdio flag). *)
Record Remote := {
  LocalHost : string;
  LocalPort : string;
  RemoteHost : string;
  RemotePort : string;
  Family : Proto;
  Socks : bool;
  Reverse : bool;
  Stdio : bool
}.

(** Modelled from the spec: the struct [settings.User] (an identifier, a
    secret and an ordered list of address patterns). *)
Record User := {
  Name : string;
  Pass : string;
  Addrs : list string
}.

(** Modelled from the spec: the struct [settings.Config] sent by the
    client (a version string and the ordered remotes). *)
Record Config := {
  Version : string;
  Remotes : list Remote
}.

(** Modelled from the spec: [Remotes.Reversed], the filter that keeps, in
    order, the remotes whose reverse flag is the one asked for. *)
Definition Reversed (rs : list Remote) (reverse : bool) : list Remote :=
  List.filter (fun r => Bool.eqb (Reverse r) reverse) rs.

(** Modelled from the spec: [settings.EnvDuration], the duration held by
    an environment variable (a duration string), or the default when the
    variable does not hold one. *)
Definition EnvDuration (ParseDuration : string -> option Z)
    (environ : gmap string string) (name : string) (def : Z) : Z :=
  match environ !! name with
  | Some v => match ParseDuration v with Some d => d | None => def end
  | None => def
  end.

End settings.

(** Package [golang.org/x/crypto/ssh]: an out-of-band request. *)
Module ssh.
Record Request := {
  Type_ : string;
  WantReply : bool;
  Payload : list Byte.byte
}.
End ssh.

(** The two loggers of a run: the server's own ([s.Infof], [s.Debugf]) and
    the one forked for the session ([l], prefix [session#<id>]). *)
Inductive Logger := ServerLog | SessionLog (id : Z).
Inductive Level := Info | Debug.

(** Package [share/tunnel]: the configuration handed to [tunnel.New]. *)
Module tunnel.
Record Config := {
  Logger_ : Logger;
  Inbound : bool;
  Outbound : bool;
  Socks : bool;
  KeepAlive : Z
}.
End tunnel.

(** [chserver.Config], the fields the handler reads. *)
Record Config := {
  Psk : string;
  Obfs : bool;
  Resp404 : string;
  Reverse : bool;
  Socks5 : bool;
  KeepAlive : Z
}.

(** The reverse-proxy delegate ([*httputil.ReverseProxy]), known by its
    target. *)
Inductive ReverseProxy := ProxyTo (target : string).

(** [chserver.Server], the fields the handler uses: [users] is the table of
    configured users, [sessions] the SessionTicket store (session id to
    user), [sessCount] the int32 session counter. *)
Record Server := {
  config : Config;
  reverseProxy : option ReverseProxy;
  users : gmap string settings.User;
  sessions : gmap string settings.User;
  sessCount : Z
}.

Definition with_sessCount (s : Server) (n : Z) : Server :=
  {| config := config s; reverseProxy := reverseProxy s; users := users s;
     sessions := sessions s; sessCount := n |}.

Definition with_sessions (s : Server) (m : gmap string settings.User) : Server :=
  {| config := config s; reverseProxy := reverseProxy s; users := users s;
     sessions := m; sessCount := sessCount s |}.

(** [*http.Request], the fields that exist for the handler to look at. *)
Record Request := {
  Method : string;
  URL_Path : string;
  Header : gmap string (list string);
  RemoteAddr : string
}.

Definition with_Method (r : Request) (m : string) : Request :=
  {| Method := m; URL_Path := URL_Path r; Header := Header r;
     RemoteAddr := RemoteAddr r |}.

(** ** Effects *)

(** The calls the handler makes on its collaborators.  Log events carry the
    formatted line (without the logger's prefix); [Reply] is
    [r.Reply(ok, payload)] on the config request; [Close] is
    [sshConn.Close()]; [After d] is the timer armed by [time.After(d)]. *)
Inductive Event :=
| Log (l : Logger) (lv : Level) (line : string)
| WriteHeader (code : Z)
| Write (body : list Byte.byte)
| ServeHTTP (p : ReverseProxy) (r : Request)
| Upgrade
| NewServerConn
| SessionsGet (sid : string)
| SessionsDel (sid : string)
| After (d : Z)
| Reply (ok : bool) (payload : list Byte.byte)
| Close
| TunnelNew (c : tunnel.Config)
| BindSSH
| BindRemotes (rs : list settings.Remote).

(** How a run of the handler ends: it returns, or it panics. *)
Inductive Outcome := Returned | Panicked (msg : string).

(** What a [select] over the request channel and the timer yields: a value
    received from [reqs] ([None] is the nil pointer a closed channel
    delivers) or the timer. *)
Inductive Selected := Received (r : option ssh.Request) | TimedOut.

(** The answers of the collaborators during one run.
    - [upgrade]: the error of [upgrader.Upgrade], if any;
    - [handshake]: the error of [ssh.NewServerConn], or the session id of
      the connection it returns;
    - [reqs_ready]: the instant (nanoseconds after the [select] starts) at
      which [reqs] becomes receivable, with what it delivers; [None] when it
      never does;
    - [pick_reqs]: the choice [select] makes when both channels are ready;
    - [environ]: the process environment;
    - [bindSSH], [bindRemotes]: the errors the two tunnel sub-tasks return;
    - [bindSSH_first]: whether the error of [BindSSH] is the first one the
      error group records when both sub-tasks fail. *)
Record World := {
  upgrade : option string;
  handshake : string + string;
  reqs_ready : option (Z * option ssh.Request);
  pick_reqs : bool;
  environ : gmap string string;
  bindSSH : option string;
  bindRemotes : option string;
  bindSSH_first : bool
}.

(** [time.Second], in nanoseconds. *)
Definition Second : Z := 1000000000.

(** [atomic.AddInt32] wraps around in 32 bits, two's complement. *)
Definition wrap32 (x : Z) : Z := (x + 2 ^ 31) mod 2 ^ 32 - 2 ^ 31.

(** A [select] with a receive from [reqs] and a timer of duration [d]
    (a timer of non-positive duration fires at once): the channel that is
    ready first is taken, and [pick] decides when both are ready at the
    same instant. *)
Definition select_reqs (ready : option (Z * option ssh.Request)) (d : Z)
    (pick : bool) : Selected :=
  match ready with
  | None => TimedOut
  | Some (t, r) =>
      let fire := Z.max 0 d in
      if Z.max 0 t <? fire then Received r
      else if fire <? Z.max 0 t then TimedOut
      else if pick then Received r else TimedOut
  end.

(** [errgroup.Group.Wait]: the first error recorded, nil when both
    sub-tasks return nil. *)
Definition Wait (a b : option string) (a_first : bool) : option string :=
  match a, b with
  | None, None => None
  | Some e, None => Some e
  | None, Some e => Some e
  | Some ea, Some eb => if a_first then Some ea else Some eb
  end.

(** The HTTP response as [net/http] builds it from the calls on the
    response writer: the first [WriteHeader] fixes the status, a [Write]
    before any [WriteHeader] fixes it at 200, bodies are appended. *)
Record Response := {
  status : option Z;
  body : list Byte.byte
}.

Definition respond (w : Response) (e : Event) : Response :=
  match e with
  | WriteHeader code =>
      {| status := match status w with None => Some code | st => st end;
         body := body w |}
  | Write b =>
      {| status := match status w with None => Some 200 | st => st end;
         body := body w ++ b |}
  | _ => w
  end.

Definition response_of (evs : list Event) : Response :=
  fold_left respond evs {| status := None; body := [] |}.

(** ** Concrete collaborators

    One concrete choice for everything the handler takes from outside its
    own file, used to run it on examples. *)

(** Lower-casing of the ASCII letters. *)
Fixpoint ascii_ToLower (s : string) : string :=
  match s with
  | EmptyString => EmptyString
  | String c s' => String (to_lower c) (ascii_ToLower s')
  end.

Definition demo_ParseDuration (v : string) : option Z :=
  if String.eqb v "3s" then Some (3 * Second) else None.

Definition demo_forward : settings.Remote :=
  {| settings.LocalHost := "0.0.0.0"; settings.LocalPort := "3000";
     settings.RemoteHost := "localhost"; settings.RemotePort := "22";
     settings.Family := settings.tcp; settings.Socks := false;
     settings.Reverse := false; settings.Stdio := false |}.

Definition demo_reverse : settings.Remote :=
  {| settings.LocalHost := "0.0.0.0"; settings.LocalPort := "8080";
     settings.RemoteHost := "localhost"; settings.RemotePort := "22";
     settings.Family := settings.tcp; settings.Socks := false;
     settings.Reverse := true; settings.Stdio := false |}.

Definition demo_busy : settings.Remote :=
  {| settings.LocalHost := "0.0.0.0"; settings.LocalPort := "80";
     settings.RemoteHost := "localhost"; settings.RemotePort := "25";
     settings.Family := settings.tcp; settings.Socks := false;
     settings.Reverse := true; settings.Stdio := false |}.

(** A toy wire format: the first byte of the payload selects the config. *)
Definition demo_DecodeConfig (payload : list Byte.byte) : option settings.Config :=
  match payload with
  | Byte.x01 :: _ =>
      Some {| settings.Version := "1.2.3"; settings.Remotes := [demo_forward] |}
  | Byte.x02 :: _ =>
      Some {| settings.Version := "0.0.1"; settings.Remotes := [demo_forward; demo_reverse] |}
  | Byte.x03 :: _ =>
      Some {| settings.Version := ""; settings.Remotes := [demo_forward; demo_busy] |}
  | Byte.x04 :: _ =>
      Some {| settings.Version := "1.2.3"; settings.Remotes := [] |}
  | _ => None
  end.

Definition demo_UserAddr (r : settings.Remote) : string :=
  if settings.Reverse r
  then settings.LocalHost r +:+ ":" +:+ settings.LocalPort r
  else settings.RemoteHost r +:+ ":" +:+ settings.RemotePort r.

Definition demo_Remote_String (r : settings.Remote) : string :=
  (if settings.Reverse r then "R:" else "")
  +:+ settings.LocalHost r +:+ ":" +:+ settings.LocalPort r
  +:+ "=>" +:+ settings.RemoteHost r +:+ ":" +:+ settings.RemotePort r.

Definition demo_CanListen (r : settings.Remote) : bool :=
  negb (String.eqb (settings.LocalPort r) "80").

Definition demo_HasAccess (u : settings.User) (addr : string) : bool :=
  existsb (String.eqb addr) (settings.Addrs u).

Definition demo_user : settings.User :=
  {| settings.Name := "ping"; settings.Pass := "pong";
     settings.Addrs := ["localhost:22"; "0.0.0.0:8080"; "0.0.0.0:80"] |}.

Definition demo_stranger : settings.User :=
  {| settings.Name := "foo"; settings.Pass := "bar"; settings.Addrs := [] |}.

Definition demo_config : Config :=
  {| Psk := "right"; Obfs := false; Resp404 := "Not found"; Reverse := false;
     Socks5 := false; KeepAlive := 0 |}.

(** A server without users and one with two users and a pending ticket. *)
Definition demo_server : Server :=
  {| config := demo_config; reverseProxy := None; users := ∅; sessions := ∅;
     sessCount := 6 |}.

Definition demo_server_users : Server :=
  {| config := demo_config; reverseProxy := None;
     users := <["ping" := demo_user]> (<["foo" := demo_stranger]> ∅);
     sessions := <["sid-1" := demo_stranger]> ∅;
     sessCount := 6 |}.

Definition demo_server_reverse : Server :=
  {| config := {| Psk := ""; Obfs := true; Resp404 := "Not found"; Reverse := true;
                  Socks5 := false; KeepAlive := 0 |};
     reverseProxy := None;
     users := <["ping" := demo_user]> ∅;
     sessions := <["sid-1" := demo_user]> ∅;
     sessCount := 6 |}.

Definition demo_headers (psk : list string) : gmap string (list string) :=
  insert "Upgrade" ["WebSocket"]
    (insert "Sec-Websocket-Protocol" ["penguin-v1"]
      (match psk with [] => ∅ | _ => insert "X-Penguin-Psk" psk ∅ end)).

Definition demo_request (path : string) (headers : gmap string (list string))
    : Request :=
  {| Method := "GET"; URL_Path := path; Header := headers;
     RemoteAddr := "192.0.2.7:51234" |}.

Definition demo_world (ready : option (Z * option ssh.Request)) : World :=
  {| upgrade := None; handshake := inr "sid-1"; reqs_ready := ready;
     pick_reqs := true; environ := ∅; bindSSH := Some "unexpected EOF";
     bindRemotes := None; bindSSH_first := true |}.

Definition demo_ssh_request (type : string) (first : Byte.byte) : ssh.Request :=
  {| ssh.Type_ := type; ssh.WantReply := true; ssh.Payload := [first] |}.

(** ** The handler *)

(** [l.Infof(f, args...)] and [l.Debugf(f, args...)]. *)
Definition Infof (l : Logger) (f : string) (args : list string) : Event :=
  Log l Info (Sprintf f args).
Definition Debugf (l : Logger) (f : string) (args : list string) : Event :=
  Log l Debug (Sprintf f args).

(** Classes of events. *)
Definition is_info (e : Event) : bool :=
  match e with Log _ Info _ => true | _ => false end.
Definition is_reply (e : Event) : bool :=
  match e with Reply _ _ => true | _ => false end.
Definition is_close (e : Event) : bool :=
  match e with Close => true | _ => false end.
Definition is_bind (e : Event) : bool :=
  match e with TunnelNew _ | BindSSH | BindRemotes _ => true | _ => false end.
Definition is_ticket_get (e : Event) : bool :=
  match e with SessionsGet _ => true | _ => false end.
Definition is_ticket_del (e : Event) : bool :=
  match e with SessionsDel _ => true | _ => false end.

Definition is_timer (e : Event) : bool :=
  match e with After _ => true | _ => false end.

(** The calls made before the request is received. *)
Definition is_setup (e : Event) : bool :=
  match e with
  | Upgrade | NewServerConn | Log _ Debug _ | SessionsGet _ | SessionsDel _
  | After _ => true
  | _ => false
  end.

(** The calls of a rejection: debug lines and a negative reply. *)
Definition is_rejection (e : Event) : bool :=
  match e with Log _ Debug _ | Reply false _ => true | _ => false end.

(** The calls made once the config is decoded, the version line apart. *)
Definition is_service (e : Event) : bool :=
  match e with
  | Log _ Debug _ | Reply _ _ | TunnelNew _ | BindSSH | BindRemotes _ => true
  | _ => false
  end.

(** The calls made from the wait for the request on. *)
Definition is_exchange (e : Event) : bool :=
  match e with
  | Log _ _ _ | After _ | Close | Reply _ _ | TunnelNew _ | BindSSH
  | BindRemotes _ => true
  | _ => false
  end.

(** An info line of the server's own logger. *)
Definition is_server_info (e : Event) : Prop :=
  exists line, e = Log ServerLog Info line.

(** Further classes of events: debug lines, the calls of the tunnel phase,
    the binding of the reversed remotes, a positive reply. *)
Definition is_debug (e : Event) : bool :=
  match e with Log _ Debug _ => true | _ => false end.
Definition is_tunnel (e : Event) : bool :=
  match e with
  | TunnelNew _ | BindSSH | BindRemotes _ | Log _ Debug _ => true
  | _ => false
  end.
Definition is_bind_remotes (e : Event) : bool :=
  match e with BindRemotes _ => true | _ => false end.
Definition is_accept (e : Event) : bool :=
  match e with Reply true _ => true | _ => false end.

Definition is_log (e : Event) : bool :=
  match e with Log _ _ _ => true | _ => false end.

(** The calls on the HTTP side: the response writer and the delegate. *)
Definition is_http (e : Event) : bool :=
  match e with WriteHeader _ | Write _ | ServeHTTP _ _ => true | _ => false end.

(** A line of a session logger carries the session number [id]. *)
Definition tagged (id : Z) (e : Event) : bool :=
  match e with
  | Log (SessionLog i) _ _ => Z.eqb i id
  | _ => true
  end.

(** How many events of a class a run made. *)
Definition count (p : Event -> bool) (evs : list Event) : nat :=
  length (List.filter p evs).

Section Handler.

(** What the handler takes from outside [server/server_handler.go]:
    - [BuildVersion], [ProtocolVersion]: the constants of package
      [chshare];
    - [ToLower]: [strings.ToLower];
    - [ParseDuration]: [time.ParseDuration], [None] on a parse error;
    - [Errorf f args]: the [Error()] text of the error that the server
      logger's [Errorf] builds from a format and its operands;
    - [DecodeConfig]: [settings.DecodeConfig], [None] on an error;
    - [UserAddr], [Remote_String], [CanListen]: the methods of
      [settings.Remote] ([CanListen] is the answer of the listener
      feasibility check for that remote during the run);
    - [HasAccess]: [settings.User.HasAccess]. *)
Variables (BuildVersion ProtocolVersion : string).
Variable ToLower : string -> string.
Variable ParseDuration : string -> option Z.
Variable Errorf : string -> list string -> string.
Variable DecodeConfig : list Byte.byte -> option settings.Config.
Variable UserAddr : settings.Remote -> string.
Variable Remote_String : settings.Remote -> string.
Variable CanListen : settings.Remote -> bool.
Variable HasAccess : settings.User -> string -> bool.

(** The closure [failed] of [handleWebsocket]: log the error, reply
    negatively with its text. *)
Definition failed (l : Logger) (err : string) : list Event :=
  [Debugf l "failed: %s" [err]; Reply false (bytes err)].

(** The loop that validates the remotes.  [Some evs]: a check failed, the
    handler made the calls [evs] and returns.  [None]: every remote
    passed. *)
Fixpoint validate_remotes (s : Server) (l : Logger)
    (user : option settings.User) (rs : list settings.Remote)
    : option (list Event) :=
  match rs with
  | [] => None
  | r :: rs' =>
      if match user with
         | Some u => negb (HasAccess u (UserAddr r))
         | None => false
         end
      then Some (failed l (Errorf "access to '%s' denied" [UserAddr r]))
      else if settings.Reverse r && negb (Reverse (config s))
      then Some (Debugf l "denied reverse port forwarding request, please enable --reverse" []
                 :: failed l (Errorf "reverse port forwarding not enabled on server" []))
      else if settings.Reverse r && negb (CanListen r)
      then Some (failed l (Errorf "server cannot listen on %s" [Remote_String r]))
      else validate_remotes s l user rs'
  end.

(** The three checks a remote goes through, as the specification words
    them: access for the attached user, the reverse policy, the listener
    feasibility. *)
Definition access_ok (user : option settings.User) (r : settings.Remote) : bool :=
  match user with
  | Some u => HasAccess u (UserAddr r)
  | None => true
  end.
Definition reverse_ok (s : Server) (r : settings.Remote) : bool :=
  implb (settings.Reverse r) (Reverse (config s)).
Definition listen_ok (r : settings.Remote) : bool :=
  implb (settings.Reverse r) (CanListen r).
Definition remote_ok (s : Server) (user : option settings.User)
    (r : settings.Remote) : bool :=
  access_ok user r && reverse_ok s r && listen_ok r.

(** The log line written when the two sub-tasks have finished:
    [err != nil && !strings.HasSuffix(err.Error(), "EOF")] selects the
    line with the error text. *)
Definition closed_log (l : Logger) (err : option string) : Event :=
  match err with
  | Some e =>
      if negb (HasSuffix e "EOF") then Debugf l "closed connection (%s)" [e]
      else Debugf l "closed connection" []
  | None => Debugf l "closed connection" []
  end.

(** [eg.Wait()] for the two sub-tasks: the second one returns nil without
    binding when no remote is reversed. *)
Definition joined_error (rs : list settings.Remote) (W : World) : option string :=
  let serverInbound := settings.Reversed rs true in
  Wait (bindSSH W)
       (if (length serverInbound =? 0)%nat then None else bindRemotes W)
       (bindSSH_first W).

(** From [tunnel.New] to the end of [handleWebsocket], for the remotes
    [rs] of the config.  The two sub-tasks run concurrently; their calls
    are listed in the order they are started. *)
Definition bind_tunnel (s : Server) (l : Logger) (rs : list settings.Remote)
    (W : World) : list Event :=
  let serverInbound := settings.Reversed rs true in
  [TunnelNew {| tunnel.Logger_ := l;
                tunnel.Inbound := Reverse (config s);
                tunnel.Outbound := true;
                tunnel.Socks := Socks5 (config s);
                tunnel.KeepAlive := KeepAlive (config s) |};
   BindSSH]
  ++ (if (length serverInbound =? 0)%nat then [] else [BindRemotes serverInbound])
  ++ [closed_log l (joined_error rs W)].

(** The log line about differing versions. *)
Definition version_log (l : Logger) (c : settings.Config) : list Event :=
  if negb (String.eqb (settings.Version c) BuildVersion) then
    let v := if String.eqb (settings.Version c) "" then "<unknown>"
             else settings.Version c in
    [Infof l "client version (%s) differs from server version (%s)"
       [v; BuildVersion]]
  else [].

(** From ["validate remotes"] to the end of [handleWebsocket]. *)
Definition validate_and_bind (s : Server) (l : Logger)
    (user : option settings.User) (rs : list settings.Remote) (W : World)
    : list Event :=
  match validate_remotes s l user rs with
  | Some evs => evs
  | None => Reply true [] :: bind_tunnel s l rs W
  end.

(** From the received request [r] to the end of [handleWebsocket]. *)
Definition negotiate (s : Server) (l : Logger) (user : option settings.User)
    (r : ssh.Request) (W : World) : list Event :=
  if negb (String.eqb (ssh.Type_ r) "config") then
    failed l (Errorf "expecting config request" [])
  else
    match DecodeConfig (ssh.Payload r) with
    | None => failed l (Errorf "invalid config" [])
    | Some c =>
        version_log l c ++ validate_and_bind s l user (settings.Remotes c) W
    end.

(** The duration of the config timer. *)
Definition config_timeout (W : World) : Z :=
  settings.EnvDuration ParseDuration (environ W) "CONFIG_TIMEOUT" (10 * Second).

(** From ["verifying configuration"] to the end of [handleWebsocket]. *)
Definition config_exchange (s : Server) (l : Logger)
    (user : option settings.User) (W : World) : list Event * Outcome :=
  let d := config_timeout W in
  let '(evs, out) :=
    match select_reqs (reqs_ready W) d (pick_reqs W) with
    | TimedOut =>
        ([Debugf l "timeout waiting for configuration" []; Close], Returned)
    | Received None =>
        ([], Panicked "invalid memory address or nil pointer dereference")
    | Received (Some r) => (negotiate s l user r W, Returned)
    end in
  (Debugf l "verifying configuration" [] :: After d :: evs, out).

(** "pull the users from the session map": with configured users, the
    ticket of the session id is looked up and deleted; [None] is the
    panic of a missing ticket. *)
Definition take_ticket (s : Server) (sid : string)
    : option (option settings.User * Server * list Event) :=
  if (0 <? size (users s))%nat then
    match sessions s !! sid with
    | None => None
    | Some u =>
        Some (Some u, with_sessions s (delete sid (sessions s)),
              [SessionsGet sid; SessionsDel sid])
    end
  else Some (None, s, []).

(** The calls from the upgrade to the handshake. *)
Definition handshaking (l : Logger) (req : Request) : list Event :=
  [Upgrade; Debugf l "handshaking with %s..." [RemoteAddr req]; NewServerConn].

(** [handleWebsocket]. *)
Definition handleWebsocket (s : Server) (req : Request) (W : World)
    : Server * list Event * Outcome :=
  let id := wrap32 (sessCount s + 1) in
  let s1 := with_sessCount s id in
  let l := SessionLog id in
  match upgrade W with
  | Some err => (s1, [Upgrade; Debugf l "failed to upgrade (%s)" [err]], Returned)
  | None =>
      match handshake W with
      | inl err =>
          (s1,
           handshaking l req ++ [Debugf ServerLog "failed to handshake (%s)" [err]],
           Returned)
      | inr sid =>
          match take_ticket s1 sid with
          | None =>
              (s1, handshaking l req ++ [SessionsGet sid],
               Panicked "bug in ssh auth handler")
          | Some (user, s2, tk) =>
              let '(evs, out) := config_exchange s2 l user W in
              (s2, handshaking l req ++ tk ++ evs, out)
          end
      end
  end.

(** The part of [handleClientHandler] after the upgrade test: the proxy,
    the health and version checks, the 404. *)
Definition fallthrough (s : Server) (r : Request) : list Event :=
  let missing := [WriteHeader 404; Write (bytes (Resp404 (config s)))] in
  match reverseProxy s with
  | Some p => [ServeHTTP p r]
  | None =>
      if negb (Obfs (config s)) then
        if String.eqb (URL_Path r) "/health" then [Write (bytes ("OK" +:+ LF))]
        else if String.eqb (URL_Path r) "/version" then [Write (bytes BuildVersion)]
        else missing
      else missing
  end.

(** [handleClientHandler]. *)
Definition handleClientHandler (s : Server) (r : Request) (W : World)
    : Server * list Event * Outcome :=
  let upgrade := ToLower (Header_Get (Header r) "Upgrade") in
  let protocol := Header_Get (Header r) "Sec-WebSocket-Protocol" in
  let wsPsk := Header_Get (Header r) "X-Penguin-Psk" in
  if String.eqb upgrade "websocket" && HasPrefix protocol "penguin-" then
    if String.eqb (Psk (config s)) "" || String.eqb wsPsk (Psk (config s)) then
      if String.eqb protocol ProtocolVersion then handleWebsocket s r W
      else
        (s,
         Infof ServerLog "ignoring client connection using protocol '%s', expected '%s'"
           [protocol; ProtocolVersion]
         :: fallthrough s r,
         Returned)
    else
      (s,
       Infof ServerLog "ignoring client connection with incorrect or missing PSK '%s'"
         [wsPsk]
       :: fallthrough s r,
       Returned)
  else (s, fallthrough s r, Returned).

(** The events and the outcome of a run. *)
Definition events_of (res : Server * list Event * Outcome) : list Event :=
  snd (fst res).
Definition outcome_of (res : Server * list Event * Outcome) : Outcome :=
  snd res.
Definition server_of (res : Server * list Event * Outcome) : Server :=
  fst (fst res).

(** A run of [handleWebsocket] in which the upgrade and the handshake
    succeed, the ticket step leaves the user [user], the server [s2] and
    the calls [tk], and the [select] receives the request [r]. *)
Definition receives (s : Server) (W : World) (user : option settings.User)
    (s2 : Server) (tk : list Event) (r : ssh.Request) : Prop :=
  upgrade W = None
  /\ (exists sid, handshake W = inr sid
        /\ take_ticket (with_sessCount s (wrap32 (sessCount s + 1))) sid
           = Some (user, s2, tk))
  /\ select_reqs (reqs_ready W) (config_timeout W) (pick_reqs W)
     = Received (Some r).

(** Such a run in which the request is a config request that decodes
    to [c]. *)
Definition decodes (s : Server) (W : World) (user : option settings.User)
    (s2 : Server) (tk : list Event) (r : ssh.Request) (c : settings.Config)
    : Prop :=
  receives s W user s2 tk r
  /\ ssh.Type_ r = "config"
  /\ DecodeConfig (ssh.Payload r) = Some c.

(** The calls of such a run up to the reception of the request. *)
Definition session_prefix (s : Server) (req : Request) (W : World)
    (tk : list Event) : list Event :=
  let l := SessionLog (wrap32 (sessCount s + 1)) in
  handshaking l req ++ tk
  ++ [Debugf l "verifying configuration" []; After (config_timeout W)].

(** ** Properties of the dispatcher *)

Lemma eqb_false_of_neq (a b : string) : a <> b -> String.eqb a b = false.
Proof. intros H. apply String.eqb_neq. exact H. Qed.

Lemma Header_Get_absent (h : gmap string (list string)) :
  h !! "X-Penguin-Psk" = None -> Header_Get h "X-Penguin-Psk" = "".
Proof.
  intros H. unfold Header_Get.
  change (CanonicalMIMEHeaderKey "X-Penguin-Psk") with "X-Penguin-Psk".
  rewrite H. reflexivity.
Qed.

Lemma fallthrough_no_upgrade (s : Server) (r : Request) :
  ~ In Upgrade (fallthrough s r).
Proof.
  unfold fallthrough.
  destruct (reverseProxy s); destruct (Obfs (config s)); simpl;
    repeat match goal with
           | |- context [String.eqb ?a ?b] => destruct (String.eqb a b)
           end; simpl; intuition discriminate.
Qed.

Lemma handleWebsocket_upgrade_first (s : Server) (req : Request) (W : World) :
  exists tl, events_of (handleWebsocket s req W) = Upgrade :: tl.
Proof.
  unfold handleWebsocket, events_of.
  destruct (upgrade W); [eexists; reflexivity |].
  destruct (handshake W); [eexists; reflexivity |].
  destruct (take_ticket _ _) as [[[user s2] tk] |]; [| eexists; reflexivity].
  destruct (config_exchange _ _ _ _). eexists; reflexivity.
Qed.

Lemma handleWebsocket_attempts_upgrade (s : Server) (req : Request) (W : World) :
  In Upgrade (events_of (handleWebsocket s req W)).
Proof.
  destruct (handleWebsocket_upgrade_first s req W) as [tl ->]. left. reflexivity.
Qed.

Lemma respond_logs (logs : list Event) (w : Response) :
  Forall is_server_info logs -> fold_left respond logs w = w.
Proof.
  induction 1 as [| e logs [line ->] _ IH]; simpl; [reflexivity | exact IH].
Qed.

Lemma response_of_logs (logs evs : list Event) :
  Forall is_server_info logs ->
  response_of (logs ++ evs) = response_of evs.
Proof.
  intros H. unfold response_of. rewrite fold_left_app.
  rewrite (respond_logs logs _ H). reflexivity.
Qed.

(** Every run that does not enter [handleWebsocket] is some info lines of
    the server logger followed by the fall-through. *)
Lemma dispatch_shape (s : Server) (r : Request) (W : World) :
  ~ In Upgrade (events_of (handleClientHandler s r W)) ->
  exists logs,
    Forall is_server_info logs
    /\ handleClientHandler s r W = (s, logs ++ fallthrough s r, Returned).
Proof.
  unfold handleClientHandler. intros H.
  destruct (String.eqb _ "websocket" && HasPrefix _ "penguin-").
  - destruct (String.eqb (Psk (config s)) "" || String.eqb _ (Psk (config s))).
    + destruct (String.eqb _ ProtocolVersion).
      * exfalso. apply H. apply handleWebsocket_attempts_upgrade.
      * eexists [_]. split; [| reflexivity].
        constructor; [eexists; reflexivity | constructor].
    + eexists [_]. split; [| reflexivity].
      constructor; [eexists; reflexivity | constructor].
  - exists []. split; [constructor | reflexivity].
Qed.

(** C1. With a non-empty pre-shared key, a tunnel-upgrade candidate whose
    [X-Penguin-Psk] header is absent or differs from the key is never
    upgraded: the handler logs the incorrect-or-missing-PSK line and goes
    on to the non-tunnel path. *)
Theorem psk_mismatch_falls_through (s : Server) (r : Request) (W : World) :
  Psk (config s) <> "" ->
  ToLower (Header_Get (Header r) "Upgrade") = "websocket" ->
  HasPrefix (Header_Get (Header r) "Sec-WebSocket-Protocol") "penguin-" = true ->
  (Header r !! "X-Penguin-Psk" = None
   \/ Header_Get (Header r) "X-Penguin-Psk" <> Psk (config s)) ->
  handleClientHandler s r W
  = (s,
     Log ServerLog Info
       ("ignoring client connection with incorrect or missing PSK '"
        +:+ Header_Get (Header r) "X-Penguin-Psk" +:+ "'")
     :: fallthrough s r,
     Returned)
  /\ ~ In Upgrade (events_of (handleClientHandler s r W)).
Proof.
  intros Hpsk Hup Hproto Hhdr.
  assert (Hne : Header_Get (Header r) "X-Penguin-Psk" <> Psk (config s)).
  { destruct Hhdr as [Habs | Hne]; [| exact Hne].
    rewrite (Header_Get_absent _ Habs). congruence. }
  assert (Heq : handleClientHandler s r W
            = (s,
               Log ServerLog Info
                 ("ignoring client connection with incorrect or missing PSK '"
                  +:+ Header_Get (Header r) "X-Penguin-Psk" +:+ "'")
               :: fallthrough s r,
               Returned)).
  { unfold handleClientHandler.
    rewrite Hup, Hproto, (eqb_false_of_neq _ _ Hpsk), (eqb_false_of_neq _ _ Hne).
    reflexivity. }
  split; [exact Heq |].
  rewrite Heq. unfold events_of. simpl.
  intros [Hlog | Hin]; [discriminate |].
  exact (fallthrough_no_upgrade s r Hin).
Qed.

(** C3. A request that is not upgraded is served by the reverse-proxy
    delegate when there is one; otherwise, with obfuscation off,
    [/health] gets status 200 with body ["OK\n"] and [/version] gets
    status 200 with the build version; in every remaining case the
    response is status 404 with the configured body. *)
Theorem fallthrough_precedence (s : Server) (r : Request) (W : World) :
  ~ In Upgrade (events_of (handleClientHandler s r W)) ->
  exists logs,
    Forall is_server_info logs
    /\ outcome_of (handleClientHandler s r W) = Returned
    /\ server_of (handleClientHandler s r W) = s
    /\ (forall p, reverseProxy s = Some p ->
          events_of (handleClientHandler s r W) = logs ++ [ServeHTTP p r])
    /\ (reverseProxy s = None -> Obfs (config s) = false ->
        URL_Path r = "/health" ->
          events_of (handleClientHandler s r W)
          = logs ++ [Write (bytes ("OK" +:+ LF))]
          /\ response_of (events_of (handleClientHandler s r W))
             = {| status := Some 200; body := bytes ("OK" +:+ LF) |})
    /\ (reverseProxy s = None -> Obfs (config s) = false ->
        URL_Path r = "/version" ->
          events_of (handleClientHandler s r W)
          = logs ++ [Write (bytes BuildVersion)]
          /\ response_of (events_of (handleClientHandler s r W))
             = {| status := Some 200; body := bytes BuildVersion |})
    /\ (reverseProxy s = None ->
        Obfs (config s) = true
        \/ (URL_Path r <> "/health" /\ URL_Path r <> "/version") ->
          events_of (handleClientHandler s r W)
          = logs ++ [WriteHeader 404; Write (bytes (Resp404 (config s)))]
          /\ response_of (events_of (handleClientHandler s r W))
             = {| status := Some 404; body := bytes (Resp404 (config s)) |}).
Proof.
  intros H. destruct (dispatch_shape s r W H) as (logs & Hlogs & ->).
  exists logs. unfold events_of, outcome_of, server_of. simpl.
  split; [exact Hlogs |]. split; [reflexivity |]. split; [reflexivity |].
  unfold fallthrough.
  split; [| split; [| split]].
  - intros p ->. reflexivity.
  - intros -> -> ->. simpl. split; [reflexivity |].
    rewrite (response_of_logs _ _ Hlogs). reflexivity.
  - intros -> -> ->. simpl. split; [reflexivity |].
    rewrite (response_of_logs _ _ Hlogs). reflexivity.
  - intros -> Hcase.
    assert (Hev : (if negb (Obfs (config s))
                   then if String.eqb (URL_Path r) "/health"
                        then [Write (bytes ("OK" +:+ LF))]
                        else if String.eqb (URL_Path r) "/version"
                             then [Write (bytes BuildVersion)]
                             else [WriteHeader 404; Write (bytes (Resp404 (config s)))]
                   else [WriteHeader 404; Write (bytes (Resp404 (config s)))])
                  = [WriteHeader 404; Write (bytes (Resp404 (config s)))]).
    { destruct Hcase as [-> | [Hh Hv]]; [reflexivity |].
      rewrite (eqb_false_of_neq _ _ Hh), (eqb_false_of_neq _ _ Hv).
      destruct (Obfs (config s)); reflexivity. }
    rewrite Hev. split; [reflexivity |].
    rewrite (response_of_logs _ _ Hlogs). reflexivity.
Qed.

(** C10. With no reverse-proxy delegate and obfuscation off, a request
    that is not upgraded gets the [/health] and [/version] responses
    whatever its method: the run does not depend on the method. *)
Theorem health_version_any_method (s : Server) (r : Request) (W : World)
    (m : string) :
  reverseProxy s = None -> Obfs (config s) = false ->
  ~ In Upgrade (events_of (handleClientHandler s r W)) ->
  handleClientHandler s (with_Method r m) W = handleClientHandler s r W
  /\ (URL_Path r = "/health" ->
      response_of (events_of (handleClientHandler s (with_Method r m) W))
      = {| status := Some 200; body := bytes ("OK" +:+ LF) |})
  /\ (URL_Path r = "/version" ->
      response_of (events_of (handleClientHandler s (with_Method r m) W))
      = {| status := Some 200; body := bytes BuildVersion |}).
Proof.
  intros Hproxy Hobfs H.
  assert (Heq : handleClientHandler s (with_Method r m) W
                = handleClientHandler s r W).
  { unfold handleClientHandler, handleWebsocket, handshaking, fallthrough.
    simpl. rewrite Hproxy. reflexivity. }
  split; [exact Heq |]. rewrite Heq.
  destruct (dispatch_shape s r W H) as (logs & Hlogs & ->).
  unfold events_of. simpl. rewrite (response_of_logs _ _ Hlogs).
  unfold fallthrough. rewrite Hproxy, Hobfs. simpl.
  split; intros ->; reflexivity.
Qed.

(** ** Properties of the session supervisor *)

(** Two classes of events are disjoint: by cases on the event. *)
Ltac event_classes :=
  let e := fresh "e" in
  intros e; destruct e; simpl; try congruence;
  repeat match goal with
         | |- context [match ?x with _ => _ end] => destruct x; simpl
         end;
  congruence.

Lemma count_app (p : Event -> bool) (a b : list Event) :
  count p (a ++ b) = (count p a + count p b)%nat.
Proof. unfold count. rewrite List.filter_app, List.length_app. reflexivity. Qed.

Lemma count_none (p q : Event -> bool) (evs : list Event) :
  (forall e, q e = true -> p e = false) ->
  forallb q evs = true -> count p evs = 0%nat.
Proof.
  intros Hpq. unfold count.
  induction evs as [| e evs IH]; simpl; [reflexivity |].
  intros H. apply andb_prop in H as [He Hevs].
  rewrite (Hpq e He). apply IH. exact Hevs.
Qed.

Lemma forallb_app_true (q : Event -> bool) (a b : list Event) :
  forallb q a = true -> forallb q b = true -> forallb q (a ++ b) = true.
Proof. intros Ha Hb. rewrite List.forallb_app, Ha, Hb. reflexivity. Qed.

(** The ticket step makes no call, or one lookup and one deletion, and
    leaves the configuration alone. *)
Lemma take_ticket_cases (s : Server) (sid : string)
    (user : option settings.User) (s2 : Server) (tk : list Event) :
  take_ticket s sid = Some (user, s2, tk) ->
  (user = None /\ s2 = s /\ tk = [])
  \/ (exists u, sessions s !! sid = Some u /\ user = Some u
        /\ s2 = with_sessions s (delete sid (sessions s))
        /\ tk = [SessionsGet sid; SessionsDel sid]).
Proof.
  unfold take_ticket. destruct (0 <? size (users s))%nat.
  - destruct (sessions s !! sid) as [u |] eqn:Hu; [| discriminate].
    intros [= <- <- <-]. right. exists u. repeat split.
  - intros [= <- <- <-]. left. repeat split.
Qed.

Lemma take_ticket_setup (s : Server) (sid : string)
    (user : option settings.User) (s2 : Server) (tk : list Event) :
  take_ticket s sid = Some (user, s2, tk) -> forallb is_setup tk = true.
Proof.
  intros H. destruct (take_ticket_cases _ _ _ _ _ H)
    as [(_ & _ & ->) | (u & _ & _ & _ & ->)]; reflexivity.
Qed.

Lemma session_prefix_setup (s : Server) (req : Request) (W : World)
    (user : option settings.User) (s2 : Server) (tk : list Event)
    (r : ssh.Request) :
  receives s W user s2 tk r ->
  forallb is_setup (session_prefix s req W tk) = true.
Proof.
  intros (_ & (sid & _ & Htk) & _). unfold session_prefix.
  apply forallb_app_true; [reflexivity |].
  apply forallb_app_true; [| reflexivity].
  exact (take_ticket_setup _ _ _ _ _ Htk).
Qed.

(** A run that receives a request is the calls up to the reception
    followed by the negotiation, and it returns. *)
Lemma handleWebsocket_receives (s : Server) (req : Request) (W : World)
    (user : option settings.User) (s2 : Server) (tk : list Event)
    (r : ssh.Request) :
  receives s W user s2 tk r ->
  handleWebsocket s req W
  = (s2,
     session_prefix s req W tk
     ++ negotiate s2 (SessionLog (wrap32 (sessCount s + 1))) user r W,
     Returned).
Proof.
  intros (Hup & (sid & Hhs & Htk) & Hsel).
  unfold handleWebsocket, config_exchange, session_prefix.
  rewrite Hup, Hhs, Htk, Hsel.
  rewrite <- !List.app_assoc. reflexivity.
Qed.

Lemma handleWebsocket_decodes (s : Server) (req : Request) (W : World)
    (user : option settings.User) (s2 : Server) (tk : list Event)
    (r : ssh.Request) (c : settings.Config) :
  decodes s W user s2 tk r c ->
  handleWebsocket s req W
  = (s2,
     session_prefix s req W tk
     ++ version_log (SessionLog (wrap32 (sessCount s + 1))) c
     ++ validate_and_bind s2 (SessionLog (wrap32 (sessCount s + 1))) user
          (settings.Remotes c) W,
     Returned).
Proof.
  intros (Hrecv & Htype & Hdec).
  rewrite (handleWebsocket_receives _ _ _ _ _ _ _ Hrecv).
  unfold negotiate. rewrite Htype, Hdec. reflexivity.
Qed.

Lemma str_app_nil_r (a : string) : a +:+ "" = a.
Proof.
  induction a as [| ch a IH]; [reflexivity |].
  change (String ch a +:+ "") with (String ch (a +:+ "")). rewrite IH. reflexivity.
Qed.

(** The two calls of [failed], with the log line written out. *)
Lemma failed_line (l : Logger) (err : string) :
  failed l err = [Log l Debug ("failed: " +:+ err); Reply false (bytes err)].
Proof.
  unfold failed, Debugf.
  change (Sprintf "failed: %s" [err]) with ("failed: " +:+ (err +:+ "")).
  rewrite str_app_nil_r. reflexivity.
Qed.

(** C4. The first request received after the handshake must be a config
    request: for any other type the supervisor replies negatively with
    the error text and returns without binding a tunnel; when the payload
    does not decode it replies negatively with the text of the
    ["invalid config"] error and returns. *)
Theorem config_request_first (s : Server) (req : Request) (W : World)
    (user : option settings.User) (s2 : Server) (tk : list Event)
    (r : ssh.Request) :
  receives s W user s2 tk r ->
  let l := SessionLog (wrap32 (sessCount s + 1)) in
  (ssh.Type_ r <> "config" ->
     handleWebsocket s req W
     = (s2,
        session_prefix s req W tk
        ++ [Log l Debug ("failed: " +:+ Errorf "expecting config request" []);
            Reply false (bytes (Errorf "expecting config request" []))],
        Returned)
     /\ count is_bind (events_of (handleWebsocket s req W)) = 0%nat)
  /\ (ssh.Type_ r = "config" -> DecodeConfig (ssh.Payload r) = None ->
     handleWebsocket s req W
     = (s2,
        session_prefix s req W tk
        ++ [Log l Debug ("failed: " +:+ Errorf "invalid config" []);
            Reply false (bytes (Errorf "invalid config" []))],
        Returned)
     /\ count is_bind (events_of (handleWebsocket s req W)) = 0%nat).
Proof.
  intros Hrecv l.
  pose proof (session_prefix_setup s req W _ _ _ _ Hrecv) as Hpre.
  assert (Hbind : forall err,
            count is_bind (session_prefix s req W tk ++ failed l err) = 0%nat).
  { intros err. rewrite count_app.
    rewrite (count_none is_bind is_setup _ ltac:(event_classes) Hpre).
    reflexivity. }
  rewrite (handleWebsocket_receives _ _ _ _ _ _ _ Hrecv). unfold negotiate.
  split.
  - intros Hty. rewrite (eqb_false_of_neq _ _ Hty). cbn [negb].
    rewrite <- failed_line.
    split; [reflexivity |]. apply (Hbind (Errorf "expecting config request" [])).
  - intros Hty Hdec. rewrite Hty, Hdec. rewrite <- failed_line.
    split; [reflexivity |]. apply (Hbind (Errorf "invalid config" [])).
Qed.

(** A remote that passes the three checks lets the loop go on. *)
Lemma validate_remotes_ok (s : Server) (l : Logger)
    (user : option settings.User) (x : settings.Remote)
    (rs : list settings.Remote) :
  remote_ok s user x = true ->
  validate_remotes s l user (x :: rs) = validate_remotes s l user rs.
Proof.
  unfold remote_ok, access_ok, reverse_ok, listen_ok. intros H.
  apply andb_prop in H as [H Hlisten]. apply andb_prop in H as [Hacc Hrev].
  cbn [validate_remotes].
  assert (Ha : match user with
               | Some u => negb (HasAccess u (UserAddr x))
               | None => false
               end = false).
  { destruct user as [u |]; [rewrite Hacc |]; reflexivity. }
  rewrite Ha.
  destruct (settings.Reverse x); simpl in *; [| reflexivity].
  rewrite Hrev, Hlisten. reflexivity.
Qed.

Lemma validate_remotes_skip (s : Server) (l : Logger)
    (user : option settings.User) (pre rest : list settings.Remote) :
  forallb (remote_ok s user) pre = true ->
  validate_remotes s l user (pre ++ rest) = validate_remotes s l user rest.
Proof.
  induction pre as [| x pre IH]; intros H; [reflexivity |].
  cbn [forallb] in H. apply andb_prop in H as [Hx Hpre].
  rewrite <- List.app_comm_cons, (validate_remotes_ok _ _ _ _ _ Hx).
  apply IH. exact Hpre.
Qed.

Lemma validate_remotes_all_ok (s : Server) (l : Logger)
    (user : option settings.User) (rs : list settings.Remote) :
  forallb (remote_ok s user) rs = true -> validate_remotes s l user rs = None.
Proof.
  intros H. rewrite <- (List.app_nil_r rs).
  rewrite (validate_remotes_skip _ _ _ _ _ H). reflexivity.
Qed.

(** A failed validation is a rejection: debug lines and a negative reply,
    the reply last. *)
Lemma validate_remotes_rejects (s : Server) (l : Logger)
    (user : option settings.User) (rs : list settings.Remote)
    (evs : list Event) :
  validate_remotes s l user rs = Some evs ->
  forallb is_rejection evs = true
  /\ exists front msg, evs = front ++ [Reply false msg].
Proof.
  induction rs as [| x rs IH]; [discriminate |].
  cbn [validate_remotes].
  destruct (match user with
            | Some u => negb (HasAccess u (UserAddr x))
            | None => false
            end).
  { intros [= <-]. split; [reflexivity |]. eexists [_], _. reflexivity. }
  destruct (settings.Reverse x && negb (Reverse (config s))).
  { intros [= <-]. split; [reflexivity |]. eexists [_; _], _. reflexivity. }
  destruct (settings.Reverse x && negb (CanListen x)).
  { intros [= <-]. split; [reflexivity |]. eexists [_], _. reflexivity. }
  exact IH.
Qed.

Lemma validate_remotes_fails (s : Server) (l : Logger)
    (user : option settings.User) (rs : list settings.Remote) :
  forallb (remote_ok s user) rs = false ->
  exists evs, validate_remotes s l user rs = Some evs.
Proof.
  induction rs as [| x rs IH]; [discriminate |].
  cbn [forallb]. destruct (remote_ok s user x) eqn:Hx.
  - rewrite (validate_remotes_ok _ _ _ _ _ Hx). exact IH.
  - intros _. cbn [validate_remotes].
    unfold remote_ok, access_ok, reverse_ok, listen_ok in Hx.
    destruct user as [u |]; [destruct (HasAccess u (UserAddr x)) |];
      destruct (settings.Reverse x); destruct (Reverse (config s));
      destruct (CanListen x); simpl in *; try discriminate;
      eexists; reflexivity.
Qed.

(** C2. The remotes of a decoded config are validated in declared order.
    The first remote that fails a check ends the run with a negative
    reply: the access check of the attached user (text of the
    ["access to '<addr>' denied"] error), then the reverse policy (text
    of the ["reverse port forwarding not enabled on server"] error), then
    the listener feasibility (text of the ["server cannot listen on
    <remote>"] error).  When every remote passes, the empty list
    included, a positive reply with an empty payload is sent. *)
Theorem remotes_validated_in_order (s : Server) (req : Request) (W : World)
    (user : option settings.User) (s2 : Server) (tk : list Event)
    (r : ssh.Request) (c : settings.Config) :
  decodes s W user s2 tk r c ->
  let l := SessionLog (wrap32 (sessCount s + 1)) in
  let run evs :=
    handleWebsocket s req W
    = (s2, session_prefix s req W tk ++ version_log l c ++ evs, Returned) in
  (forall pre x post,
      settings.Remotes c = pre ++ x :: post ->
      forallb (remote_ok s2 user) pre = true ->
      (forall u, user = Some u -> HasAccess u (UserAddr x) = false ->
         run [Log l Debug
                ("failed: " +:+ Errorf "access to '%s' denied" [UserAddr x]);
              Reply false (bytes (Errorf "access to '%s' denied" [UserAddr x]))])
      /\ (access_ok user x = true ->
          settings.Reverse x = true -> Reverse (config s2) = false ->
          run [Log l Debug
                 "denied reverse port forwarding request, please enable --reverse";
               Log l Debug
                 ("failed: "
                  +:+ Errorf "reverse port forwarding not enabled on server" []);
               Reply false
                 (bytes (Errorf "reverse port forwarding not enabled on server" []))])
      /\ (access_ok user x = true ->
          settings.Reverse x = true -> Reverse (config s2) = true ->
          CanListen x = false ->
          run [Log l Debug
                 ("failed: "
                  +:+ Errorf "server cannot listen on %s" [Remote_String x]);
               Reply false
                 (bytes (Errorf "server cannot listen on %s" [Remote_String x]))]))
  /\ (forallb (remote_ok s2 user) (settings.Remotes c) = true ->
      run (Reply true [] :: bind_tunnel s2 l (settings.Remotes c) W))
  /\ (settings.Remotes c = [] ->
      run (Reply true [] :: bind_tunnel s2 l [] W)).
Proof.
  intros Hdec l run. unfold run.
  rewrite (handleWebsocket_decodes _ _ _ _ _ _ _ _ Hdec).
  fold l. unfold validate_and_bind.
  split; [| split].
  - intros pre x post Hrs Hpre. rewrite Hrs.
    rewrite (validate_remotes_skip _ _ _ _ _ Hpre). cbn [validate_remotes].
    rewrite <- !failed_line.
    split; [| split].
    + intros u -> Hacc. rewrite Hacc. reflexivity.
    + unfold access_ok. intros Hacc Hrev Hpol.
      assert (Ha : match user with
                   | Some u => negb (HasAccess u (UserAddr x))
                   | None => false
                   end = false).
      { destruct user as [u |]; [rewrite Hacc |]; reflexivity. }
      rewrite Ha, Hrev, Hpol. reflexivity.
    + unfold access_ok. intros Hacc Hrev Hpol Hlisten.
      assert (Ha : match user with
                   | Some u => negb (HasAccess u (UserAddr x))
                   | None => false
                   end = false).
      { destruct user as [u |]; [rewrite Hacc |]; reflexivity. }
      rewrite Ha, Hrev, Hpol, Hlisten. reflexivity.
  - intros Hall. rewrite (validate_remotes_all_ok _ _ _ _ Hall). reflexivity.
  - intros ->. reflexivity.
Qed.

Lemma forallb_impl (p q : Event -> bool) (evs : list Event) :
  (forall e, p e = true -> q e = true) ->
  forallb p evs = true -> forallb q evs = true.
Proof.
  intros Hpq. induction evs as [| e evs IH]; simpl; [reflexivity |].
  intros H. apply andb_prop in H as [He Hevs].
  rewrite (Hpq e He), (IH Hevs). reflexivity.
Qed.

Lemma version_log_info (l : Logger) (c : settings.Config) :
  forallb is_info (version_log l c) = true.
Proof.
  unfold version_log. destruct (negb (String.eqb (settings.Version c) BuildVersion));
    reflexivity.
Qed.

Lemma closed_log_debug (l : Logger) (err : option string) :
  exists line, closed_log l err = Log l Debug line.
Proof.
  unfold closed_log, Debugf. destruct err as [e |]; [| eexists; reflexivity].
  destruct (negb (HasSuffix e "EOF")); eexists; reflexivity.
Qed.

Lemma bind_tunnel_service (s : Server) (l : Logger)
    (rs : list settings.Remote) (W : World) :
  forallb is_service (bind_tunnel s l rs W) = true.
Proof.
  unfold bind_tunnel.
  destruct (closed_log_debug l (joined_error rs W)) as [line ->].
  destruct (length (settings.Reversed rs true) =? 0)%nat; reflexivity.
Qed.

Lemma validate_and_bind_service (s : Server) (l : Logger)
    (user : option settings.User) (rs : list settings.Remote) (W : World) :
  forallb is_service (validate_and_bind s l user rs W) = true.
Proof.
  unfold validate_and_bind.
  destruct (validate_remotes s l user rs) as [evs |] eqn:Hv.
  - apply (forallb_impl is_rejection); [event_classes |].
    exact (proj1 (validate_remotes_rejects _ _ _ _ _ Hv)).
  - cbn [forallb is_service]. apply bind_tunnel_service.
Qed.

Lemma negotiate_exchange (s : Server) (l : Logger)
    (user : option settings.User) (r : ssh.Request) (W : World) :
  forallb is_exchange (negotiate s l user r W) = true.
Proof.
  unfold negotiate.
  destruct (negb (String.eqb (ssh.Type_ r) "config")); [reflexivity |].
  destruct (DecodeConfig (ssh.Payload r)) as [c |]; [| reflexivity].
  apply forallb_app_true.
  - apply (forallb_impl is_info); [event_classes | apply version_log_info].
  - apply (forallb_impl is_service); [event_classes |].
    apply validate_and_bind_service.
Qed.

Lemma config_exchange_events (s : Server) (l : Logger)
    (user : option settings.User) (W : World) :
  forallb is_exchange (fst (config_exchange s l user W)) = true.
Proof.
  unfold config_exchange.
  destruct (select_reqs _ _ _) as [[r |] |]; cbn [fst forallb is_exchange Debugf andb];
    [apply negotiate_exchange | reflexivity | reflexivity].
Qed.

(** The timer wins the [select] when nothing can be received from the
    request channel before it fires. *)
Lemma select_reqs_timeout (ready : option (Z * option ssh.Request)) (d : Z)
    (pick : bool) :
  ready = None \/ (exists t x, ready = Some (t, x) /\ Z.max 0 d < t) ->
  select_reqs ready d pick = TimedOut.
Proof.
  intros [-> | (t & x & -> & Ht)]; [reflexivity |].
  unfold select_reqs.
  destruct (Z.ltb_spec (Z.max 0 t) (Z.max 0 d)); [lia |].
  destruct (Z.ltb_spec (Z.max 0 d) (Z.max 0 t)); [reflexivity | lia].
Qed.

(** C5. After the handshake the supervisor waits for one request under a
    timer of 10 seconds, or of the duration held by [CONFIG_TIMEOUT].
    When no request arrives before the timer fires, the supervisor closes
    the connection and returns; no reply is sent and no tunnel is
    bound. *)
Theorem config_timeout_closes (s : Server) (req : Request) (W : World)
    (sid : string) (user : option settings.User) (s2 : Server)
    (tk : list Event) :
  upgrade W = None ->
  handshake W = inr sid ->
  take_ticket (with_sessCount s (wrap32 (sessCount s + 1))) sid
  = Some (user, s2, tk) ->
  (reqs_ready W = None
   \/ exists t x, reqs_ready W = Some (t, x) /\ Z.max 0 (config_timeout W) < t) ->
  let l := SessionLog (wrap32 (sessCount s + 1)) in
  (environ W !! "CONFIG_TIMEOUT" = None -> config_timeout W = 10 * Second)
  /\ (forall v d, environ W !! "CONFIG_TIMEOUT" = Some v ->
        ParseDuration v = Some d -> config_timeout W = d)
  /\ handleWebsocket s req W
     = (s2,
        handshaking l req ++ tk
        ++ [Log l Debug "verifying configuration"; After (config_timeout W);
            Log l Debug "timeout waiting for configuration"; Close],
        Returned)
  /\ count is_timer (events_of (handleWebsocket s req W)) = 1%nat
  /\ count is_reply (events_of (handleWebsocket s req W)) = 0%nat
  /\ count is_bind (events_of (handleWebsocket s req W)) = 0%nat.
Proof.
  intros Hup Hhs Htk Hready l.
  split; [| split].
  - intros Henv. unfold config_timeout, settings.EnvDuration.
    rewrite Henv. reflexivity.
  - intros v d Henv Hparse. unfold config_timeout, settings.EnvDuration.
    rewrite Henv, Hparse. reflexivity.
  - assert (Hrun : handleWebsocket s req W
              = (s2,
                 handshaking l req ++ tk
                 ++ [Log l Debug "verifying configuration";
                     After (config_timeout W);
                     Log l Debug "timeout waiting for configuration"; Close],
                 Returned)).
    { unfold handleWebsocket, config_exchange.
      rewrite Hup, Hhs, Htk, (select_reqs_timeout _ _ _ Hready). reflexivity. }
    split; [exact Hrun |]. rewrite Hrun. unfold events_of. cbn [fst snd].
    destruct (take_ticket_cases _ _ _ _ _ Htk)
      as [(_ & _ & ->) | (u & _ & _ & _ & ->)]; repeat split.
Qed.

(** C6, as the code has it.  On a protocol fault (wrong first request
    type, undecodable config) and on a policy fault (some remote fails a
    check) the handler sends a negative reply and returns; it makes no
    call to close the connection. *)
Theorem fault_reply_without_close (s : Server) (req : Request) (W : World)
    (user : option settings.User) (s2 : Server) (tk : list Event)
    (r : ssh.Request) :
  receives s W user s2 tk r ->
  (ssh.Type_ r <> "config"
   \/ DecodeConfig (ssh.Payload r) = None
   \/ exists c, DecodeConfig (ssh.Payload r) = Some c
                /\ forallb (remote_ok s2 user) (settings.Remotes c) = false) ->
  outcome_of (handleWebsocket s req W) = Returned
  /\ (exists front msg,
        events_of (handleWebsocket s req W) = front ++ [Reply false msg])
  /\ count is_close (events_of (handleWebsocket s req W)) = 0%nat.
Proof.
  intros Hrecv Hfault.
  pose proof (session_prefix_setup s req W _ _ _ _ Hrecv) as Hpre.
  rewrite (handleWebsocket_receives _ _ _ _ _ _ _ Hrecv).
  unfold outcome_of, events_of. cbn [fst snd].
  split; [reflexivity |].
  set (l := SessionLog (wrap32 (sessCount s + 1))).
  assert (Hfailed : forall err,
            (exists front msg,
                session_prefix s req W tk ++ failed l err
                = front ++ [Reply false msg])
            /\ count is_close (session_prefix s req W tk ++ failed l err) = 0%nat).
  { intros err. split.
    - exists (session_prefix s req W tk ++ [Debugf l "failed: %s" [err]]), (bytes err).
      rewrite <- List.app_assoc. reflexivity.
    - rewrite count_app.
      rewrite (count_none is_close is_setup _ ltac:(event_classes) Hpre).
      reflexivity. }
  unfold negotiate.
  destruct (String.eqb (ssh.Type_ r) "config") eqn:Hty; cbn [negb];
    [| apply Hfailed].
  apply String.eqb_eq in Hty.
  destruct (DecodeConfig (ssh.Payload r)) as [c |] eqn:Hdec; [| apply Hfailed].
  destruct Hfault as [Hne | [Hnone | (c' & Hsome & Hbad)]];
    [contradiction | discriminate |].
  injection Hsome as <-.
  destruct (validate_remotes_fails s2 l user _ Hbad) as [evs Hv].
  unfold validate_and_bind. rewrite Hv.
  destruct (validate_remotes_rejects _ _ _ _ _ Hv) as (Hrej & front & msg & ->).
  split.
  - exists (session_prefix s req W tk ++ version_log l c ++ front), msg.
    rewrite <- !List.app_assoc. reflexivity.
  - rewrite !count_app.
    rewrite (count_none is_close is_setup _ ltac:(event_classes) Hpre).
    rewrite (count_none is_close is_info _ ltac:(event_classes)
               (version_log_info l c)).
    rewrite <- count_app.
    rewrite (count_none is_close is_rejection _ ltac:(event_classes) Hrej).
    reflexivity.
Qed.

(** C7. After a completed handshake on a server with at least one
    configured user, the handler looks the session id up in the ticket
    store: without an entry it panics and does nothing more; with an entry
    it takes the user, deletes the entry, and goes on; the store is read
    once and the entry deleted once. *)
Theorem ticket_consumed_once (s : Server) (req : Request) (W : World)
    (sid : string) :
  (0 < size (users s))%nat ->
  upgrade W = None ->
  handshake W = inr sid ->
  let id := wrap32 (sessCount s + 1) in
  let l := SessionLog id in
  (sessions s !! sid = None ->
     handleWebsocket s req W
     = (with_sessCount s id, handshaking l req ++ [SessionsGet sid],
        Panicked "bug in ssh auth handler"))
  /\ (forall u, sessions s !! sid = Some u ->
        let s2 := with_sessions (with_sessCount s id) (delete sid (sessions s)) in
        handleWebsocket s req W
        = (s2,
           handshaking l req ++ [SessionsGet sid; SessionsDel sid]
           ++ fst (config_exchange s2 l (Some u) W),
           snd (config_exchange s2 l (Some u) W))
        /\ sessions (server_of (handleWebsocket s req W))
           = delete sid (sessions s)
        /\ sessions (server_of (handleWebsocket s req W)) !! sid = None
        /\ count is_ticket_get (events_of (handleWebsocket s req W)) = 1%nat
        /\ count is_ticket_del (events_of (handleWebsocket s req W)) = 1%nat).
Proof.
  intros Husers Hup Hhs id l.
  assert (Hlen : (0 <? size (users (with_sessCount s id)))%nat = true).
  { apply Nat.ltb_lt. exact Husers. }
  split.
  - intros Hnone. unfold handleWebsocket, take_ticket.
    fold id. rewrite Hup, Hhs, Hlen. cbn [sessions with_sessCount].
    rewrite Hnone. reflexivity.
  - intros u Hsome s2.
    assert (Hrun : handleWebsocket s req W
              = (s2,
                 handshaking l req ++ [SessionsGet sid; SessionsDel sid]
                 ++ fst (config_exchange s2 l (Some u) W),
                 snd (config_exchange s2 l (Some u) W))).
    { unfold handleWebsocket, take_ticket.
      fold id. rewrite Hup, Hhs, Hlen. cbn [sessions with_sessCount].
      rewrite Hsome. fold s2. fold l.
      destruct (config_exchange s2 l (Some u) W). reflexivity. }
    split; [exact Hrun |]. rewrite Hrun.
    unfold server_of, events_of. cbn [fst snd].
    split; [reflexivity |].
    split; [apply lookup_delete_eq |].
    pose proof (config_exchange_events s2 l (Some u) W) as Hex.
    split.
    + rewrite !count_app.
      rewrite (count_none is_ticket_get is_exchange _ ltac:(event_classes) Hex).
      reflexivity.
    + rewrite !count_app.
      rewrite (count_none is_ticket_del is_exchange _ ltac:(event_classes) Hex).
      reflexivity.
Qed.

Lemma str_app_cons (ch : ascii) (a b : string) :
  String ch a +:+ b = String ch (a +:+ b).
Proof. reflexivity. Qed.

Lemma str_length_app (a b : string) :
  String.length (a +:+ b) = (String.length a + String.length b)%nat.
Proof.
  induction a as [| ch a IH]; [reflexivity |].
  rewrite str_app_cons. cbn [String.length]. rewrite IH. reflexivity.
Qed.

Lemma str_drop_app (a b : string) : str_drop (String.length a) (a +:+ b) = b.
Proof.
  induction a as [| ch a IH]; [destruct b; reflexivity |].
  rewrite str_app_cons. cbn [String.length str_drop]. exact IH.
Qed.

Lemma str_take_drop (n : nat) (a : string) : str_take n a +:+ str_drop n a = a.
Proof.
  revert a. induction n as [| n IH]; intros a; [destruct a; reflexivity |].
  destruct a as [| ch a]; [reflexivity |].
  cbn [str_take str_drop]. rewrite str_app_cons, IH. reflexivity.
Qed.

(** [HasSuffix] holds exactly of the strings that end in the suffix. *)
Lemma HasSuffix_iff (a x : string) :
  HasSuffix a x = true <-> exists p, a = p +:+ x.
Proof.
  unfold HasSuffix. split.
  - intros H. apply andb_prop in H as [_ H]. apply String.eqb_eq in H.
    exists (str_take (String.length a - String.length x) a).
    set (n := (String.length a - String.length x)%nat) in *.
    rewrite <- H. symmetry. apply str_take_drop.
  - intros [p ->]. rewrite str_length_app.
    replace (String.length p + String.length x - String.length x)%nat
      with (String.length p) by lia.
    rewrite str_drop_app, String.eqb_refl.
    rewrite (proj2 (Nat.leb_le _ _)) by lia. reflexivity.
Qed.

(** C8. When the two sub-tasks have finished, the last call of the run
    is the log line about the joined error: ["closed connection"] when the
    error is nil or its text ends in ["EOF"], and
    ["closed connection (<text>)"] for any other error. *)
Theorem close_log_classification (s : Server) (req : Request) (W : World)
    (user : option settings.User) (s2 : Server) (tk : list Event)
    (r : ssh.Request) (c : settings.Config) :
  decodes s W user s2 tk r c ->
  forallb (remote_ok s2 user) (settings.Remotes c) = true ->
  let l := SessionLog (wrap32 (sessCount s + 1)) in
  let err := joined_error (settings.Remotes c) W in
  (exists front,
      events_of (handleWebsocket s req W) = front ++ [closed_log l err])
  /\ (err = None \/ (exists p, err = Some (p +:+ "EOF")) ->
      closed_log l err = Log l Debug "closed connection")
  /\ (forall e, err = Some e -> (forall p, e <> p +:+ "EOF") ->
      closed_log l err = Log l Debug ("closed connection (" +:+ e +:+ ")")).
Proof.
  intros Hdec Hall l err. split; [| split].
  - rewrite (handleWebsocket_decodes _ _ _ _ _ _ _ _ Hdec).
    unfold events_of, validate_and_bind. cbn [fst snd]. fold l.
    rewrite (validate_remotes_all_ok _ _ _ _ Hall). unfold bind_tunnel.
    fold err. eexists.
    rewrite List.app_comm_cons.
    rewrite (List.app_assoc (Reply true [] :: _) _ [closed_log l err]).
    rewrite (List.app_assoc (version_log l c) _ [closed_log l err]).
    rewrite (List.app_assoc (session_prefix s req W tk) _ [closed_log l err]).
    reflexivity.
  - unfold closed_log.
    intros [-> | [p ->]]; [reflexivity |].
    rewrite (proj2 (HasSuffix_iff (p +:+ "EOF") "EOF")) by (exists p; reflexivity).
    reflexivity.
  - intros e -> Hno. unfold closed_log.
    destruct (HasSuffix e "EOF") eqn:Hsuf.
    + apply HasSuffix_iff in Hsuf as [p ->]. exfalso. exact (Hno p eq_refl).
    + reflexivity.
Qed.

(** C9. A decoded config whose version differs from the build version
    adds one info line to the run (an empty version shown as
    ["<unknown>"]) and changes nothing else: validation and binding go on
    as they do for equal versions, which add no such line. *)
Theorem version_mismatch_advisory (s : Server) (req : Request) (W : World)
    (user : option settings.User) (s2 : Server) (tk : list Event)
    (r : ssh.Request) (c : settings.Config) :
  decodes s W user s2 tk r c ->
  let l := SessionLog (wrap32 (sessCount s + 1)) in
  let rest := validate_and_bind s2 l user (settings.Remotes c) W in
  let shown := if String.eqb (settings.Version c) "" then "<unknown>"
               else settings.Version c in
  (settings.Version c <> BuildVersion ->
     handleWebsocket s req W
     = (s2,
        session_prefix s req W tk
        ++ Log l Info
             ("client version (" +:+ shown
              +:+ ") differs from server version (" +:+ BuildVersion +:+ ")")
           :: rest,
        Returned))
  /\ (settings.Version c = BuildVersion ->
      handleWebsocket s req W
      = (s2, session_prefix s req W tk ++ rest, Returned))
  /\ count is_info (session_prefix s req W tk ++ rest) = 0%nat.
Proof.
  intros Hdec l rest shown.
  rewrite (handleWebsocket_decodes _ _ _ _ _ _ _ _ Hdec).
  fold l. fold rest. unfold version_log.
  split; [| split].
  - intros Hne. rewrite (eqb_false_of_neq _ _ Hne). reflexivity.
  - intros Heq. rewrite Heq, String.eqb_refl. reflexivity.
  - rewrite count_app.
    rewrite (count_none is_info is_setup _ ltac:(event_classes)
               (session_prefix_setup s req W _ _ _ _ (proj1 Hdec))).
    apply (count_none is_info is_service _ ltac:(event_classes)).
    apply validate_and_bind_service.
Qed.

(** ** Further properties of the dispatcher *)

(** X1. The dispatcher attempts the WebSocket upgrade exactly for the
    requests whose lower-cased [Upgrade] header is ["websocket"], whose
    sub-protocol begins with ["penguin-"] and equals the protocol version,
    and whose key header matches when a key is configured; the run is then
    the one of [handleWebsocket]. *)
Theorem upgrade_exactly_when (s : Server) (r : Request) (W : World) :
  let accepted :=
    ToLower (Header_Get (Header r) "Upgrade") = "websocket"
    /\ HasPrefix (Header_Get (Header r) "Sec-WebSocket-Protocol") "penguin-" = true
    /\ (Psk (config s) = "" \/ Header_Get (Header r) "X-Penguin-Psk" = Psk (config s))
    /\ Header_Get (Header r) "Sec-WebSocket-Protocol" = ProtocolVersion in
  (In Upgrade (events_of (handleClientHandler s r W)) <-> accepted)
  /\ (accepted -> handleClientHandler s r W = handleWebsocket s r W).
Proof.
  intros accepted. unfold accepted. clear accepted. unfold handleClientHandler.
  destruct (String.eqb (ToLower (Header_Get (Header r) "Upgrade")) "websocket")
    eqn:Hup;
    [apply String.eqb_eq in Hup | apply String.eqb_neq in Hup].
  2:{ cbn [andb]. split; [split |].
      - intros Hin. exfalso. exact (fallthrough_no_upgrade s r Hin).
      - intros (H & _). contradiction.
      - intros (H & _). contradiction. }
  destruct (HasPrefix (Header_Get (Header r) "Sec-WebSocket-Protocol") "penguin-")
    eqn:Hpre.
  2:{ cbn [andb]. split; [split |].
      - intros Hin. exfalso. exact (fallthrough_no_upgrade s r Hin).
      - intros (_ & H & _). discriminate.
      - intros (_ & H & _). discriminate. }
  cbn [andb].
  destruct (String.eqb (Psk (config s)) "") eqn:Hpsk;
    [apply String.eqb_eq in Hpsk | apply String.eqb_neq in Hpsk];
    destruct (String.eqb (Header_Get (Header r) "X-Penguin-Psk") (Psk (config s)))
      eqn:Hkey;
    [apply String.eqb_eq in Hkey | apply String.eqb_neq in Hkey
     | apply String.eqb_eq in Hkey | apply String.eqb_neq in Hkey];
    cbn [orb];
    try (destruct (String.eqb (Header_Get (Header r) "Sec-WebSocket-Protocol")
                     ProtocolVersion) eqn:Hver;
         [apply String.eqb_eq in Hver | apply String.eqb_neq in Hver]);
    (split; [split |]);
    try (intros _; auto; fail);
    try (intros; reflexivity);
    try (intros _; apply handleWebsocket_attempts_upgrade);
    try (unfold events_of; cbn [fst snd]; intros [Hlog | Hin];
         [discriminate | exfalso; exact (fallthrough_no_upgrade s r Hin)]);
    try (intros (_ & _ & _ & H); contradiction);
    try (intros (_ & _ & [H | H] & _); contradiction).
Qed.

(** X2. A tunnel-upgrade candidate that passes the key test but names a
    sub-protocol other than the protocol version is not upgraded: the
    handler writes one info line naming both protocols and answers on the
    non-tunnel path, leaving the server as it was. *)
Theorem protocol_mismatch_falls_through (s : Server) (r : Request) (W : World) :
  ToLower (Header_Get (Header r) "Upgrade") = "websocket" ->
  HasPrefix (Header_Get (Header r) "Sec-WebSocket-Protocol") "penguin-" = true ->
  (Psk (config s) = "" \/ Header_Get (Header r) "X-Penguin-Psk" = Psk (config s)) ->
  Header_Get (Header r) "Sec-WebSocket-Protocol" <> ProtocolVersion ->
  handleClientHandler s r W
  = (s,
     Log ServerLog Info
       ("ignoring client connection using protocol '"
        +:+ Header_Get (Header r) "Sec-WebSocket-Protocol"
        +:+ "', expected '" +:+ ProtocolVersion +:+ "'")
     :: fallthrough s r,
     Returned).
Proof.
  intros Hup Hpre Hkey Hver. unfold handleClientHandler.
  rewrite Hup, Hpre, (eqb_false_of_neq _ _ Hver).
  assert (Hk : String.eqb (Psk (config s)) ""
               || String.eqb (Header_Get (Header r) "X-Penguin-Psk") (Psk (config s))
               = true).
  { destruct Hkey as [-> | ->]; [reflexivity |].
    rewrite String.eqb_refl. apply orb_true_r. }
  rewrite Hk. reflexivity.
Qed.

(** X3. A request that is not a tunnel-upgrade candidate (its lower-cased
    [Upgrade] header is not ["websocket"], or its sub-protocol does not
    begin with ["penguin-"]) is answered on the non-tunnel path without any
    log line, whatever key it carries. *)
Theorem non_candidate_is_silent (s : Server) (r : Request) (W : World) :
  ToLower (Header_Get (Header r) "Upgrade") <> "websocket"
  \/ HasPrefix (Header_Get (Header r) "Sec-WebSocket-Protocol") "penguin-" = false ->
  handleClientHandler s r W = (s, fallthrough s r, Returned)
  /\ count is_info (events_of (handleClientHandler s r W)) = 0%nat
  /\ count is_debug (events_of (handleClientHandler s r W)) = 0%nat.
Proof.
  intros H.
  assert (Hrun : handleClientHandler s r W = (s, fallthrough s r, Returned)).
  { unfold handleClientHandler.
    destruct H as [H | H];
      [rewrite (eqb_false_of_neq _ _ H) | rewrite H, andb_false_r]; reflexivity. }
  rewrite Hrun. split; [reflexivity |].
  unfold events_of, fallthrough. cbn [fst snd].
  destruct (reverseProxy s); destruct (negb (Obfs (config s)));
    repeat match goal with
           | |- context [String.eqb ?a ?b] => destruct (String.eqb a b)
           end; split; reflexivity.
Qed.

(** ** Further properties of the session supervisor *)

Lemma wrap32_range (x : Z) : - 2 ^ 31 <= wrap32 x < 2 ^ 31.
Proof.
  unfold wrap32.
  pose proof (Z.mod_pos_bound (x + 2 ^ 31) (2 ^ 32) ltac:(lia)). lia.
Qed.

Lemma wrap32_small (x : Z) : - 2 ^ 31 <= x < 2 ^ 31 -> wrap32 x = x.
Proof. intros H. unfold wrap32. rewrite Z.mod_small by lia. lia. Qed.

Lemma wrap32_succ_neq (n : Z) : - 2 ^ 31 <= n < 2 ^ 31 -> wrap32 (n + 1) <> n.
Proof.
  intros H. destruct (Z.eq_dec n (2 ^ 31 - 1)) as [-> | Hne].
  - vm_compute. discriminate.
  - rewrite wrap32_small by lia. lia.
Qed.

(** The paths of [handleWebsocket], one by one. *)
Lemma handleWebsocket_cases (s : Server) (req : Request) (W : World) :
  let id := wrap32 (sessCount s + 1) in
  let s1 := with_sessCount s id in
  let l := SessionLog id in
  (exists err,
      upgrade W = Some err
      /\ handleWebsocket s req W
         = (s1, [Upgrade; Log l Debug ("failed to upgrade (" +:+ err +:+ ")")],
            Returned))
  \/ (exists err,
        upgrade W = None /\ handshake W = inl err
        /\ handleWebsocket s req W
           = (s1,
              handshaking l req
              ++ [Log ServerLog Debug ("failed to handshake (" +:+ err +:+ ")")],
              Returned))
  \/ (exists sid,
        upgrade W = None /\ handshake W = inr sid
        /\ take_ticket s1 sid = None
        /\ (0 < size (users s))%nat /\ sessions s !! sid = None
        /\ handleWebsocket s req W
           = (s1, handshaking l req ++ [SessionsGet sid],
              Panicked "bug in ssh auth handler"))
  \/ (exists sid user s2 tk,
        upgrade W = None /\ handshake W = inr sid
        /\ take_ticket s1 sid = Some (user, s2, tk)
        /\ ((select_reqs (reqs_ready W) (config_timeout W) (pick_reqs W) = TimedOut
             /\ handleWebsocket s req W
                = (s2,
                   session_prefix s req W tk
                   ++ [Log l Debug "timeout waiting for configuration"; Close],
                   Returned))
            \/ (select_reqs (reqs_ready W) (config_timeout W) (pick_reqs W)
                = Received None
                /\ handleWebsocket s req W
                   = (s2, session_prefix s req W tk,
                      Panicked "invalid memory address or nil pointer dereference"))
            \/ (exists r,
                  receives s W user s2 tk r
                  /\ handleWebsocket s req W
                     = (s2, session_prefix s req W tk ++ negotiate s2 l user r W,
                        Returned)))).
Proof.
  intros id s1 l. unfold handleWebsocket. fold id. fold s1. fold l.
  destruct (upgrade W) as [err |] eqn:Hup.
  { left. exists err. split; reflexivity. }
  destruct (handshake W) as [err | sid] eqn:Hhs.
  { right. left. exists err. repeat split. }
  destruct (take_ticket s1 sid) as [[[user s2] tk] |] eqn:Htk.
  2:{ right. right. left. exists sid.
      split; [reflexivity |]. split; [reflexivity |]. split; [exact Htk |].
      unfold take_ticket in Htk. cbn [users sessions s1 with_sessCount] in Htk.
      destruct (0 <? size (users s))%nat eqn:Hlen; [| discriminate].
      apply Nat.ltb_lt in Hlen.
      destruct (sessions s !! sid); [discriminate |]. repeat split. exact Hlen. }
  right. right. right. exists sid, user, s2, tk.
  split; [reflexivity |]. split; [reflexivity |]. split; [exact Htk |].
  unfold config_exchange, session_prefix. cbv zeta. fold id. fold l.
  destruct (select_reqs (reqs_ready W) (config_timeout W) (pick_reqs W))
    as [[r |] |] eqn:Hsel.
  - right. right. exists r. split.
    + split; [exact Hup |]. split; [exists sid; split; [exact Hhs | exact Htk] |].
      exact Hsel.
    + rewrite <- !List.app_assoc. reflexivity.
  - right. left. split; [reflexivity |]. reflexivity.
  - left. split; [reflexivity |]. rewrite <- !List.app_assoc. reflexivity.
Qed.

(** The server a run leaves behind: the counter advanced, and the ticket of
    the session deleted when one was taken. *)
Lemma handleWebsocket_server (s : Server) (req : Request) (W : World) :
  let s1 := with_sessCount s (wrap32 (sessCount s + 1)) in
  server_of (handleWebsocket s req W) = s1
  \/ (exists sid u,
        upgrade W = None /\ handshake W = inr sid
        /\ (0 < size (users s))%nat /\ sessions s !! sid = Some u
        /\ server_of (handleWebsocket s req W)
           = with_sessions s1 (delete sid (sessions s))).
Proof.
  intros s1.
  destruct (handleWebsocket_cases s req W)
    as [(err & _ & ->) | [(err & _ & _ & ->) | [(sid & _ & _ & _ & _ & _ & ->)
        | (sid & user & s2 & tk & Hup & Hhs & Htk & Hrun)]]];
    try (left; reflexivity).
  assert (Hs2 : server_of (handleWebsocket s req W) = s2).
  { destruct Hrun as [[_ ->] | [[_ ->] | (r & _ & ->)]]; reflexivity. }
  rewrite Hs2.
  unfold take_ticket in Htk.
  cbn [users sessions with_sessCount] in Htk.
  destruct (0 <? size (users s))%nat eqn:Hlen.
  - destruct (sessions s !! sid) as [u |] eqn:Hu; [| discriminate].
    injection Htk as _ <- _. right. exists sid, u.
    apply Nat.ltb_lt in Hlen. repeat split; assumption.
  - injection Htk as _ <- _. left. reflexivity.
Qed.

(** What every run does to the server. *)
Lemma counter_frame (s : Server) (req : Request) (W : World) :
  let s' := server_of (handleWebsocket s req W) in
  sessCount s' = wrap32 (sessCount s + 1)
  /\ - 2 ^ 31 <= sessCount s' < 2 ^ 31
  /\ config s' = config s
  /\ users s' = users s
  /\ reverseProxy s' = reverseProxy s.
Proof.
  intros s'. unfold s'.
  destruct (handleWebsocket_server s req W) as [-> | (sid & u & _ & _ & _ & _ & ->)];
    cbn [sessCount config users reverseProxy with_sessCount with_sessions];
    (split; [reflexivity |]); (split; [apply wrap32_range |]); repeat split.
Qed.

(** X4. Every run of [handleWebsocket], however it ends, advances the
    session counter by one in 32-bit two's complement and leaves the
    configuration, the users and the reverse-proxy delegate of the server as
    they were. *)
Theorem session_counter_advances (s : Server) (req : Request) (W : World) :
  let s' := server_of (handleWebsocket s req W) in
  sessCount s' = wrap32 (sessCount s + 1)
  /\ - 2 ^ 31 <= sessCount s' < 2 ^ 31
  /\ config s' = config s
  /\ users s' = users s
  /\ reverseProxy s' = reverseProxy s.
Proof. exact (counter_frame s req W). Qed.

(** X5. Two consecutive sessions never get the same session number; the
    number is the previous one plus one, except that the largest 32-bit
    number is followed by the smallest. *)
Theorem consecutive_sessions_differ (s : Server) (req req' : Request)
    (W W' : World) :
  let s1 := server_of (handleWebsocket s req W) in
  let s2 := server_of (handleWebsocket s1 req' W') in
  sessCount s2 <> sessCount s1
  /\ (- 2 ^ 31 <= sessCount s < 2 ^ 31 - 1 -> sessCount s1 = sessCount s + 1)
  /\ (sessCount s = 2 ^ 31 - 1 -> sessCount s1 = - 2 ^ 31).
Proof.
  intros s1 s2.
  destruct (counter_frame s req W) as (Hc1 & Hr1 & _).
  destruct (counter_frame s1 req' W') as (Hc2 & _ & _).
  fold s1 in Hc1, Hr1. fold s2 in Hc2.
  split; [| split].
  - rewrite Hc2. apply wrap32_succ_neq. exact Hr1.
  - intros H. rewrite Hc1. apply wrap32_small. lia.
  - intros H. rewrite Hc1, H. reflexivity.
Qed.

(** X6. A run touches no ticket but the one of its own session id: under
    every other key the store holds what it held, and it holds everything
    it held when the upgrade or the handshake fails. *)
Theorem other_tickets_kept (s : Server) (req : Request) (W : World) (k : string) :
  handshake W <> inr k \/ upgrade W <> None ->
  sessions (server_of (handleWebsocket s req W)) !! k = sessions s !! k.
Proof.
  intros Hk.
  destruct (handleWebsocket_server s req W)
    as [-> | (sid & u & Hup & Hhs & _ & _ & ->)]; [reflexivity |].
  cbn [sessions with_sessions with_sessCount].
  apply lookup_delete_ne. intros <-.
  destruct Hk as [Hk | Hk]; [apply Hk; exact Hhs | apply Hk; exact Hup].
Qed.


(** X8. On a server without configured users no run reads or changes the
    ticket store. *)
Theorem no_users_no_ticket (s : Server) (req : Request) (W : World) :
  size (users s) = 0%nat ->
  sessions (server_of (handleWebsocket s req W)) = sessions s
  /\ count is_ticket_get (events_of (handleWebsocket s req W)) = 0%nat
  /\ count is_ticket_del (events_of (handleWebsocket s req W)) = 0%nat.
Proof.
  intros Hnone.
  pose proof (handleWebsocket_cases s req W) as Hcases. cbv zeta in Hcases.
  destruct Hcases
    as [(err & _ & ->) | [(err & _ & _ & ->) | [(sid & _ & _ & _ & Hlen & _)
        | (sid & user & s2 & tk & _ & _ & Htk & Hrun)]]];
    [repeat split | repeat split | lia |].
  unfold take_ticket in Htk. cbn [users sessions with_sessCount] in Htk.
  rewrite Hnone in Htk. cbn in Htk. injection Htk as <- <- <-.
  assert (Hpre : forall evs,
            forallb is_exchange evs = true ->
            count is_ticket_get (session_prefix s req W [] ++ evs) = 0%nat
            /\ count is_ticket_del (session_prefix s req W [] ++ evs) = 0%nat).
  { intros evs Hex. rewrite !count_app.
    rewrite (count_none is_ticket_get is_exchange _ ltac:(event_classes) Hex).
    rewrite (count_none is_ticket_del is_exchange _ ltac:(event_classes) Hex).
    split; reflexivity. }
  destruct Hrun as [[_ ->] | [[_ ->] | (r & _ & ->)]];
    unfold server_of, events_of; cbn [fst snd];
    (split; [reflexivity |]).
  - apply Hpre. reflexivity.
  - rewrite <- (List.app_nil_r (session_prefix s req W [])). apply Hpre. reflexivity.
  - apply Hpre. apply negotiate_exchange.
Qed.

Lemma count_cons (p : Event -> bool) (e : Event) (evs : list Event) :
  count p (e :: evs) = ((if p e then 1 else 0) + count p evs)%nat.
Proof. unfold count. cbn [List.filter]. destruct (p e); reflexivity. Qed.

Lemma count_zero_not_in (p : Event -> bool) (evs : list Event) (e : Event) :
  count p evs = 0%nat -> In e evs -> p e = false.
Proof.
  induction evs as [| a evs IH]; [intros _ [] |].
  rewrite count_cons. intros H [<- | Hin].
  - destruct (p a); [discriminate | reflexivity].
  - apply IH; [destruct (p a); [discriminate | exact H] | exact Hin].
Qed.

(** An event of a class that sits behind a prefix free of the class and a
    separator outside the class comes after the separator. *)
Lemma split_after (p : Event -> bool) (y e : Event) (P B pre post : list Event) :
  pre ++ e :: post = P ++ y :: B ->
  count p P = 0%nat -> p y = false -> p e = true -> In y pre.
Proof.
  revert pre. induction P as [| a P IH]; intros pre Heq HP Hy He.
  - destruct pre as [| b pre]; cbn in Heq; injection Heq as Hhd _.
    + congruence.
    + left. exact Hhd.
  - rewrite count_cons in HP.
    destruct (p a) eqn:Ha; [discriminate |]. cbn in HP.
    destruct pre as [| b pre]; cbn in Heq; injection Heq as Hhd Htl.
    + congruence.
    + right. exact (IH pre Htl HP Hy He).
Qed.

Lemma validate_remotes_shape (s : Server) (l : Logger)
    (user : option settings.User) (rs : list settings.Remote)
    (evs : list Event) :
  validate_remotes s l user rs = Some evs ->
  exists front msg, evs = front ++ [Reply false msg] /\ forallb is_debug front = true.
Proof.
  induction rs as [| x rs IH]; [discriminate |].
  cbn [validate_remotes].
  destruct (match user with
            | Some u => negb (HasAccess u (UserAddr x))
            | None => false
            end).
  { intros [= <-]. eexists [_], _. split; reflexivity. }
  destruct (settings.Reverse x && negb (Reverse (config s))).
  { intros [= <-]. eexists [_; _], _. split; reflexivity. }
  destruct (settings.Reverse x && negb (CanListen x)).
  { intros [= <-]. eexists [_], _. split; reflexivity. }
  exact IH.
Qed.

Lemma validate_remotes_none_ok (s : Server) (l : Logger)
    (user : option settings.User) (rs : list settings.Remote) :
  validate_remotes s l user rs = None -> forallb (remote_ok s user) rs = true.
Proof.
  intros Hnone. destruct (forallb (remote_ok s user) rs) eqn:Hall; [reflexivity |].
  destruct (validate_remotes_fails s l user rs Hall) as [evs Hv]. congruence.
Qed.

Lemma bind_tunnel_tunnel (s : Server) (l : Logger)
    (rs : list settings.Remote) (W : World) :
  forallb is_tunnel (bind_tunnel s l rs W) = true.
Proof.
  unfold bind_tunnel.
  destruct (closed_log_debug l (joined_error rs W)) as [line ->].
  destruct (length (settings.Reversed rs true) =? 0)%nat; reflexivity.
Qed.

(** The negotiation either rejects (log lines, then the negative reply) or
    accepts (the version line, the positive reply, the tunnel phase). *)
Lemma negotiate_cases (s : Server) (l : Logger) (user : option settings.User)
    (r : ssh.Request) (W : World) :
  (exists front msg,
      negotiate s l user r W = front ++ [Reply false msg]
      /\ forallb is_log front = true
      /\ (ssh.Type_ r <> "config"
          \/ DecodeConfig (ssh.Payload r) = None
          \/ exists c, ssh.Type_ r = "config"
                       /\ DecodeConfig (ssh.Payload r) = Some c
                       /\ forallb (remote_ok s user) (settings.Remotes c) = false))
  \/ (exists c,
        ssh.Type_ r = "config"
        /\ DecodeConfig (ssh.Payload r) = Some c
        /\ forallb (remote_ok s user) (settings.Remotes c) = true
        /\ negotiate s l user r W
           = version_log l c ++ Reply true [] :: bind_tunnel s l (settings.Remotes c) W).
Proof.
  unfold negotiate.
  destruct (String.eqb (ssh.Type_ r) "config") eqn:Hty; cbn [negb].
  2:{ left. apply String.eqb_neq in Hty. eexists [_], _.
      split; [reflexivity |]. split; [reflexivity |]. left. exact Hty. }
  apply String.eqb_eq in Hty.
  destruct (DecodeConfig (ssh.Payload r)) as [c |] eqn:Hdec.
  2:{ left. eexists [_], _.
      split; [reflexivity |]. split; [reflexivity |]. right. left. reflexivity. }
  unfold validate_and_bind.
  destruct (validate_remotes s l user (settings.Remotes c)) as [evs |] eqn:Hv.
  - left. destruct (validate_remotes_shape _ _ _ _ _ Hv) as (front & msg & -> & Hfront).
    exists (version_log l c ++ front), msg.
    split; [rewrite <- List.app_assoc; reflexivity |].
    split.
    + apply forallb_app_true.
      * apply (forallb_impl is_info); [event_classes | apply version_log_info].
      * apply (forallb_impl is_debug); [event_classes | exact Hfront].
    + right. right. exists c. split; [exact Hty |]. split; [reflexivity |].
      destruct (forallb (remote_ok s user) (settings.Remotes c)) eqn:Hall;
        [| reflexivity].
      rewrite (validate_remotes_all_ok _ _ _ _ Hall) in Hv. discriminate.
  - right. exists c. split; [exact Hty |]. split; [reflexivity |].
    split; [exact (validate_remotes_none_ok _ _ _ _ Hv) | reflexivity].
Qed.

(** The shape of every run of [handleWebsocket] with respect to the reply:
    no request received and no reply; or a rejection, the negative reply
    being the last call; or an acceptance, the positive reply coming before
    the tunnel phase. *)
Lemma run_shape (s : Server) (req : Request) (W : World) :
  let evs := events_of (handleWebsocket s req W) in
  (count is_reply evs = 0%nat /\ count is_bind evs = 0%nat
   /\ forall user s2 tk r, ~ receives s W user s2 tk r)
  \/ (exists front msg user s2 tk r,
        receives s W user s2 tk r
        /\ outcome_of (handleWebsocket s req W) = Returned
        /\ evs = front ++ [Reply false msg]
        /\ count is_reply front = 0%nat /\ count is_bind front = 0%nat
        /\ count is_close front = 0%nat)
  \/ (exists P B user s2 tk r,
        receives s W user s2 tk r
        /\ outcome_of (handleWebsocket s req W) = Returned
        /\ evs = P ++ Reply true [] :: B
        /\ count is_reply P = 0%nat /\ count is_bind P = 0%nat
        /\ count is_close P = 0%nat
        /\ forallb is_tunnel B = true
        /\ exists c,
             decodes s W user s2 tk r c
             /\ forallb (remote_ok s2 user) (settings.Remotes c) = true
             /\ B = bind_tunnel s2 (SessionLog (wrap32 (sessCount s + 1)))
                      (settings.Remotes c) W).
Proof.
  intros evs. unfold evs. clear evs.
  pose proof (handleWebsocket_cases s req W) as Hcases. cbv zeta in Hcases.
  destruct Hcases
    as [(err & Hup & ->) | [(err & Hup & Hhs & ->) | [(sid & Hup & Hhs & Hnt & _ & _ & ->)
        | (sid & user & s2 & tk & Hup & Hhs & Htk & Hrun)]]].
  - left. repeat split. intros user s2 tk r (H & _). congruence.
  - left. repeat split. intros user s2 tk r (_ & (sid & H & _) & _). congruence.
  - left. repeat split.
    intros user s2 tk r (_ & (sid' & H & H') & _).
    assert (sid' = sid) as -> by congruence. congruence.
  - pose proof (take_ticket_setup _ _ _ _ _ Htk) as Htks.
    assert (Hpre : forallb is_setup (session_prefix s req W tk) = true).
    { unfold session_prefix. apply forallb_app_true; [reflexivity |].
      apply forallb_app_true; [exact Htks | reflexivity]. }
    destruct Hrun as [[Hsel ->] | [[Hsel ->] | (r & Hrecv & ->)]].
    + left. unfold events_of. cbn [fst snd]. rewrite !count_app.
      rewrite (count_none is_reply is_setup _ ltac:(event_classes) Hpre).
      rewrite (count_none is_bind is_setup _ ltac:(event_classes) Hpre).
      repeat split. intros user' s2' tk' r (_ & _ & H). congruence.
    + left. unfold events_of. cbn [fst snd].
      rewrite (count_none is_reply is_setup _ ltac:(event_classes) Hpre).
      rewrite (count_none is_bind is_setup _ ltac:(event_classes) Hpre).
      repeat split. intros user' s2' tk' r (_ & _ & H). congruence.
    + right. unfold events_of, outcome_of. cbn [fst snd].
      destruct (negotiate_cases s2 (SessionLog (wrap32 (sessCount s + 1))) user r W)
        as [(front & msg & -> & Hfront & _) | (c & Hty & Hdec & Hall & ->)].
      * left. exists (session_prefix s req W tk ++ front), msg, user, s2, tk, r.
        split; [exact Hrecv |]. split; [reflexivity |].
        split; [rewrite <- List.app_assoc; reflexivity |].
        rewrite !count_app.
        rewrite (count_none is_reply is_setup _ ltac:(event_classes) Hpre).
        rewrite (count_none is_bind is_setup _ ltac:(event_classes) Hpre).
        rewrite (count_none is_close is_setup _ ltac:(event_classes) Hpre).
        rewrite (count_none is_reply is_log _ ltac:(event_classes) Hfront).
        rewrite (count_none is_bind is_log _ ltac:(event_classes) Hfront).
        rewrite (count_none is_close is_log _ ltac:(event_classes) Hfront).
        repeat split.
      * right.
        exists (session_prefix s req W tk
                ++ version_log (SessionLog (wrap32 (sessCount s + 1))) c),
          (bind_tunnel s2 (SessionLog (wrap32 (sessCount s + 1)))
             (settings.Remotes c) W), user, s2, tk, r.
        split; [exact Hrecv |]. split; [reflexivity |].
        split; [rewrite <- List.app_assoc; reflexivity |].
        rewrite !count_app.
        rewrite (count_none is_reply is_setup _ ltac:(event_classes) Hpre).
        rewrite (count_none is_bind is_setup _ ltac:(event_classes) Hpre).
        rewrite (count_none is_close is_setup _ ltac:(event_classes) Hpre).
        rewrite (count_none is_reply is_info _ ltac:(event_classes)
                   (version_log_info _ c)).
        rewrite (count_none is_bind is_info _ ltac:(event_classes)
                   (version_log_info _ c)).
        rewrite (count_none is_close is_info _ ltac:(event_classes)
                   (version_log_info _ c)).
        split; [reflexivity |]. split; [reflexivity |]. split; [reflexivity |].
        split; [apply bind_tunnel_tunnel |].
        exists c. split; [| split; [exact Hall | reflexivity]].
        split; [exact Hrecv |]. split; [exact Hty | exact Hdec].
Qed.

(** X9. Every run of [handleWebsocket] replies at most once, and it
    replies exactly when it received a request: never before the request,
    never twice, and never leaving a received request unanswered. *)
Theorem reply_exactly_once (s : Server) (req : Request) (W : World) :
  (count is_reply (events_of (handleWebsocket s req W)) <= 1)%nat
  /\ (count is_reply (events_of (handleWebsocket s req W)) = 1%nat
      <-> exists user s2 tk r, receives s W user s2 tk r).
Proof.
  destruct (run_shape s req W)
    as [(Hr & _ & Hno)
       | [(front & msg & user & s2 & tk & r & Hrecv & _ & -> & Hr & _)
         | (P & B & user & s2 & tk & r & Hrecv & _ & -> & Hr & _ & _ & HB & _)]].
  - rewrite Hr. split; [lia |]. split; [discriminate |].
    intros (user & s2 & tk & r & H). exfalso. exact (Hno _ _ _ _ H).
  - rewrite count_app, Hr. cbn. split; [lia |].
    split; [intros _; exists user, s2, tk, r; exact Hrecv | reflexivity].
  - rewrite count_app, count_cons, Hr.
    rewrite (count_none is_reply is_tunnel _ ltac:(event_classes) HB). cbn.
    split; [lia |].
    split; [intros _; exists user, s2, tk, r; exact Hrecv | reflexivity].
Qed.

(** X10. No tunnel call ([tunnel.New], [BindSSH], [BindRemotes]) is made
    before the positive reply to the config request has been sent. *)
Theorem bind_after_positive_reply (s : Server) (req : Request) (W : World)
    (pre post : list Event) (e : Event) :
  events_of (handleWebsocket s req W) = pre ++ e :: post ->
  is_bind e = true ->
  In (Reply true []) pre.
Proof.
  intros Hev He.
  destruct (run_shape s req W)
    as [(_ & Hb & _)
       | [(front & msg & user & s2 & tk & r & _ & _ & Hrun & _ & Hb & _)
         | (P & B & user & s2 & tk & r & _ & _ & Hrun & _ & Hb & _)]].
  - exfalso. rewrite Hev in Hb.
    pose proof (count_zero_not_in _ _ e Hb ltac:(apply in_elt)). congruence.
  - exfalso. rewrite Hev in Hrun.
    assert (Hall : count is_bind (pre ++ e :: post) = 0%nat).
    { rewrite Hrun, count_app, Hb. reflexivity. }
    pose proof (count_zero_not_in _ _ e Hall ltac:(apply in_elt)). congruence.
  - rewrite Hev in Hrun.
    exact (split_after is_bind _ e P B pre post Hrun Hb eq_refl He).
Qed.

(** X11. A negative reply is final: it is the last call of the run, the
    handler returns, and no tunnel call is made in that run. *)
Theorem negative_reply_is_final (s : Server) (req : Request) (W : World)
    (msg : list Byte.byte) :
  In (Reply false msg) (events_of (handleWebsocket s req W)) ->
  outcome_of (handleWebsocket s req W) = Returned
  /\ (exists front, events_of (handleWebsocket s req W) = front ++ [Reply false msg])
  /\ count is_bind (events_of (handleWebsocket s req W)) = 0%nat
  /\ count is_accept (events_of (handleWebsocket s req W)) = 0%nat.
Proof.
  intros Hin.
  destruct (run_shape s req W)
    as [(Hr & _ & _)
       | [(front & msg' & user & s2 & tk & r & _ & Hout & Hrun & Hr & Hb & _)
         | (P & B & user & s2 & tk & r & _ & _ & Hrun & Hr & _ & _ & HB & _)]].
  - pose proof (count_zero_not_in _ _ _ Hr Hin). discriminate.
  - rewrite Hrun in Hin |- *. apply in_app_or in Hin as [Hin | [Heq | []]].
    + pose proof (count_zero_not_in _ _ _ Hr Hin). discriminate.
    + injection Heq as ->. split; [exact Hout |].
      split; [exists front; reflexivity |].
      rewrite !count_app, Hb.
      split; [reflexivity |].
      assert (Hacc : count is_accept front = 0%nat).
      { unfold count in *.
        clear - Hr. induction front as [| a front IH]; [reflexivity |].
        cbn [List.filter] in *. destruct a as [| | | | | | | | | [] | | | |];
          cbn in *; try discriminate; apply IH; exact Hr. }
      rewrite Hacc. reflexivity.
  - rewrite Hrun in Hin. apply in_app_or in Hin as [Hin | [Heq | Hin]].
    + pose proof (count_zero_not_in _ _ _ Hr Hin). discriminate.
    + discriminate.
    + assert (HBr : count is_reply B = 0%nat)
        by exact (count_none is_reply is_tunnel _ ltac:(event_classes) HB).
      pose proof (count_zero_not_in _ _ _ HBr Hin). discriminate.
Qed.

Lemma take_ticket_config (s : Server) (sid : string)
    (user : option settings.User) (s2 : Server) (tk : list Event) :
  take_ticket s sid = Some (user, s2, tk) -> config s2 = config s.
Proof.
  intros H. destruct (take_ticket_cases _ _ _ _ _ H)
    as [(_ & -> & _) | (u & _ & _ & -> & _)]; reflexivity.
Qed.

Lemma receives_config (s : Server) (W : World) (user : option settings.User)
    (s2 : Server) (tk : list Event) (r : ssh.Request) :
  receives s W user s2 tk r -> config s2 = config s.
Proof.
  intros (_ & (sid & _ & Htk) & _).
  rewrite (take_ticket_config _ _ _ _ _ Htk). reflexivity.
Qed.

Lemma in_bind_tunnel (s : Server) (l : Logger) (rs : list settings.Remote)
    (W : World) (e : Event) :
  In e (bind_tunnel s l rs W) ->
  e = TunnelNew {| tunnel.Logger_ := l;
                   tunnel.Inbound := Reverse (config s);
                   tunnel.Outbound := true;
                   tunnel.Socks := Socks5 (config s);
                   tunnel.KeepAlive := KeepAlive (config s) |}
  \/ e = BindSSH
  \/ (e = BindRemotes (settings.Reversed rs true) /\ settings.Reversed rs true <> [])
  \/ e = closed_log l (joined_error rs W).
Proof.
  unfold bind_tunnel. intros [<- | [<- | Hin]]; [left; reflexivity | right; left; reflexivity |].
  right. right.
  destruct (settings.Reversed rs true) as [| x inbound] eqn:Hrev; cbn in Hin.
  - destruct Hin as [<- | []]. right. reflexivity.
  - destruct Hin as [<- | [<- | []]]; [left | right; reflexivity].
    split; [reflexivity | discriminate].
Qed.

(** X12. The positive reply is sent exactly in the runs that decode a
    config all of whose remotes pass the three checks, and its payload is
    empty: no config with a remote that fails a check is ever accepted. *)
Theorem positive_reply_iff_all_pass (s : Server) (req : Request) (W : World)
    (payload : list Byte.byte) :
  In (Reply true payload) (events_of (handleWebsocket s req W))
  <-> payload = []
      /\ exists user s2 tk r c,
           decodes s W user s2 tk r c
           /\ forallb (remote_ok s2 user) (settings.Remotes c) = true.
Proof.
  split.
  - intros Hin.
    destruct (run_shape s req W)
      as [(Hr & _ & _)
         | [(front & msg & user & s2 & tk & r & _ & _ & Hrun & Hr & _)
           | (P & B & user & s2 & tk & r & _ & _ & Hrun & Hr & _ & _ & HB
              & c & Hdec & Hall & _)]].
    + pose proof (count_zero_not_in _ _ _ Hr Hin). discriminate.
    + rewrite Hrun in Hin. apply in_app_or in Hin as [Hin | [Heq | []]].
      * pose proof (count_zero_not_in _ _ _ Hr Hin). discriminate.
      * discriminate.
    + rewrite Hrun in Hin. apply in_app_or in Hin as [Hin | [Heq | Hin]].
      * pose proof (count_zero_not_in _ _ _ Hr Hin). discriminate.
      * injection Heq as <-. split; [reflexivity |].
        exists user, s2, tk, r, c. split; assumption.
      * assert (HBr : count is_reply B = 0%nat)
          by exact (count_none is_reply is_tunnel _ ltac:(event_classes) HB).
        pose proof (count_zero_not_in _ _ _ HBr Hin). discriminate.
  - intros (-> & user & s2 & tk & r & c & Hdec & Hall).
    rewrite (handleWebsocket_decodes _ _ _ _ _ _ _ _ Hdec).
    unfold events_of, validate_and_bind. cbn [fst snd].
    rewrite (validate_remotes_all_ok _ _ _ _ Hall).
    apply in_or_app. right. apply in_or_app. right. left. reflexivity.
Qed.

(** X13. Whenever the reversed remotes are bound, the list bound is the
    non-empty list of the reverse-marked remotes of the decoded config in
    declared order, the server permits reverse tunnels, and each bound
    remote passed the access check of the session's user and the listener
    feasibility check. *)
Theorem bound_remotes_are_checked (s : Server) (req : Request) (W : World)
    (rs : list settings.Remote) :
  In (BindRemotes rs) (events_of (handleWebsocket s req W)) ->
  exists user s2 tk r c,
    decodes s W user s2 tk r c
    /\ rs = settings.Reversed (settings.Remotes c) true
    /\ rs <> []
    /\ Reverse (config s) = true
    /\ Forall (fun x => In x (settings.Remotes c)
                        /\ settings.Reverse x = true
                        /\ CanListen x = true
                        /\ access_ok user x = true) rs.
Proof.
  intros Hin.
  destruct (run_shape s req W)
    as [(_ & Hb & _)
       | [(front & msg & user & s2 & tk & r & _ & _ & Hrun & _ & Hb & _)
         | (P & B & user & s2 & tk & r & Hrecv & _ & Hrun & _ & Hb & _ & _
            & c & Hdec & Hall & ->)]].
  - pose proof (count_zero_not_in _ _ _ Hb Hin). discriminate.
  - rewrite Hrun in Hin. apply in_app_or in Hin as [Hin | [Heq | []]].
    + pose proof (count_zero_not_in _ _ _ Hb Hin). discriminate.
    + discriminate.
  - rewrite Hrun in Hin. apply in_app_or in Hin as [Hin | [Heq | Hin]].
    + pose proof (count_zero_not_in _ _ _ Hb Hin). discriminate.
    + discriminate.
    + apply in_bind_tunnel in Hin
        as [Heq | [Heq | [[Heq Hne] | Heq]]]; try discriminate.
      2:{ destruct (closed_log_debug (SessionLog (wrap32 (sessCount s + 1)))
                      (joined_error (settings.Remotes c) W)) as [line Hline].
          rewrite Hline in Heq. discriminate. }
      injection Heq as ->.
      rewrite List.forallb_forall in Hall.
      assert (Hchecked : Forall (fun x => In x (settings.Remotes c)
                                  /\ settings.Reverse x = true
                                  /\ CanListen x = true
                                  /\ access_ok user x = true
                                  /\ Reverse (config s2) = true)
                           (settings.Reversed (settings.Remotes c) true)).
      { apply List.Forall_forall. intros x Hx.
        unfold settings.Reversed in Hx. apply List.filter_In in Hx as [Hx Hrev].
        apply Bool.eqb_prop in Hrev.
        pose proof (Hall x Hx) as Hok.
        unfold remote_ok, reverse_ok, listen_ok in Hok. rewrite Hrev in Hok.
        apply andb_prop in Hok as [Hok Hlisten]. apply andb_prop in Hok as [Hacc Hpol].
        cbn in Hpol, Hlisten. repeat split; assumption. }
      exists user, s2, tk, r, c. split; [exact Hdec |]. split; [reflexivity |].
      split; [exact Hne |].
      rewrite <- (receives_config _ _ _ _ _ _ Hrecv).
      split.
      * destruct (settings.Reversed (settings.Remotes c) true) as [| x inbound];
          [contradiction |].
        apply List.Forall_inv in Hchecked.
        destruct Hchecked as (_ & _ & _ & _ & Hpol). exact Hpol.
      * eapply List.Forall_impl; [| exact Hchecked].
        intros x (H1 & H2 & H3 & H4 & _). repeat split; assumption.
Qed.

Lemma reverse_not_permitted (s : Server) (user : option settings.User)
    (rs : list settings.Remote) :
  Reverse (config s) = false ->
  existsb settings.Reverse rs = true ->
  forallb (remote_ok s user) rs = false.
Proof.
  intros Hpol. induction rs as [| x rs IH]; [discriminate |].
  cbn [existsb forallb]. unfold remote_ok at 1. unfold reverse_ok. rewrite Hpol.
  destruct (settings.Reverse x); cbn.
  - intros _. rewrite andb_false_r. reflexivity.
  - intros H. rewrite (IH H). apply andb_false_r.
Qed.

(** X14. On a server that does not permit reverse tunnels, a config with a
    reverse-marked remote is always rejected: the run ends with a negative
    reply and makes no tunnel call, so no listener is bound. *)
Theorem reverse_remote_rejected (s : Server) (req : Request) (W : World)
    (user : option settings.User) (s2 : Server) (tk : list Event)
    (r : ssh.Request) (c : settings.Config) :
  decodes s W user s2 tk r c ->
  Reverse (config s) = false ->
  existsb settings.Reverse (settings.Remotes c) = true ->
  outcome_of (handleWebsocket s req W) = Returned
  /\ (exists front msg,
        events_of (handleWebsocket s req W) = front ++ [Reply false msg])
  /\ count is_bind (events_of (handleWebsocket s req W)) = 0%nat
  /\ count is_accept (events_of (handleWebsocket s req W)) = 0%nat.
Proof.
  intros Hdec Hpol Hrev.
  pose proof (session_prefix_setup s req W _ _ _ _ (proj1 Hdec)) as Hpre.
  rewrite <- (receives_config _ _ _ _ _ _ (proj1 Hdec)) in Hpol.
  pose proof (reverse_not_permitted s2 user _ Hpol Hrev) as Hbad.
  rewrite (handleWebsocket_decodes _ _ _ _ _ _ _ _ Hdec).
  unfold outcome_of, events_of, validate_and_bind. cbn [fst snd].
  set (l := SessionLog (wrap32 (sessCount s + 1))).
  destruct (validate_remotes_fails s2 l user _ Hbad) as [evs Hv]. rewrite Hv.
  destruct (validate_remotes_rejects _ _ _ _ _ Hv) as (Hrej & front & msg & Hevs).
  split; [reflexivity |]. split.
  - exists (session_prefix s req W tk ++ version_log l c ++ front), msg.
    rewrite Hevs, <- !List.app_assoc. reflexivity.
  - rewrite !count_app.
    rewrite (count_none is_bind is_setup _ ltac:(event_classes) Hpre).
    rewrite (count_none is_accept is_setup _ ltac:(event_classes) Hpre).
    rewrite (count_none is_bind is_info _ ltac:(event_classes) (version_log_info l c)).
    rewrite (count_none is_accept is_info _ ltac:(event_classes) (version_log_info l c)).
    rewrite (count_none is_bind is_rejection _ ltac:(event_classes) Hrej).
    rewrite (count_none is_accept is_rejection _ ltac:(event_classes) Hrej).
    split; reflexivity.
Qed.

Lemma forward_only_ok (s : Server) (rs : list settings.Remote) :
  forallb (fun x => negb (settings.Reverse x)) rs = true ->
  forallb (remote_ok s None) rs = true /\ settings.Reversed rs true = [].
Proof.
  induction rs as [| x rs IH]; [split; reflexivity |].
  cbn [forallb]. intros H. apply andb_prop in H as [Hx Hrs].
  destruct (IH Hrs) as [Hok Hnone]. apply negb_true_iff in Hx.
  split.
  - rewrite Hok. unfold remote_ok, access_ok, reverse_ok, listen_ok.
    rewrite Hx. reflexivity.
  - unfold settings.Reversed in *. cbn [List.filter]. rewrite Hx. exact Hnone.
Qed.

Lemma Wait_alone (a : option string) (first : bool) : Wait a None first = a.
Proof. destruct a; reflexivity. Qed.

(** X15. A server without configured users accepts every config without
    reverse-marked remotes: the run sends the positive reply, creates the
    tunnel, binds the SSH connection and never binds remotes, and its close
    line reports the error of [BindSSH] alone. *)
Theorem forward_only_config_accepted (s : Server) (req : Request) (W : World)
    (user : option settings.User) (s2 : Server) (tk : list Event)
    (r : ssh.Request) (c : settings.Config) :
  size (users s) = 0%nat ->
  decodes s W user s2 tk r c ->
  forallb (fun x => negb (settings.Reverse x)) (settings.Remotes c) = true ->
  let l := SessionLog (wrap32 (sessCount s + 1)) in
  handleWebsocket s req W
  = (s2,
     session_prefix s req W tk ++ version_log l c
     ++ [Reply true [];
         TunnelNew {| tunnel.Logger_ := l;
                      tunnel.Inbound := Reverse (config s);
                      tunnel.Outbound := true;
                      tunnel.Socks := Socks5 (config s);
                      tunnel.KeepAlive := KeepAlive (config s) |};
         BindSSH;
         closed_log l (bindSSH W)],
     Returned).
Proof.
  intros Hnone Hdec Hfwd l.
  assert (Huser : user = None).
  { destruct Hdec as ((_ & (sid & _ & Htk) & _) & _).
    unfold take_ticket in Htk. cbn [users with_sessCount] in Htk.
    rewrite Hnone in Htk. cbn in Htk. congruence. }
  subst user.
  destruct (forward_only_ok s2 _ Hfwd) as [Hok Hrev].
  rewrite (handleWebsocket_decodes _ _ _ _ _ _ _ _ Hdec). fold l.
  unfold validate_and_bind. rewrite (validate_remotes_all_ok _ _ _ _ Hok).
  unfold bind_tunnel, joined_error. rewrite Hrev. cbn [length Nat.eqb].
  rewrite Wait_alone, (receives_config _ _ _ _ _ _ (proj1 Hdec)). reflexivity.
Qed.

(** X16. Every tunnel a run creates is configured from the server's
    policy: inbound as the reverse flag, SOCKS as the SOCKS flag, the
    configured keep-alive, the session's logger, and outbound always on. *)
Theorem tunnel_follows_policy (s : Server) (req : Request) (W : World)
    (cfg : tunnel.Config) :
  In (TunnelNew cfg) (events_of (handleWebsocket s req W)) ->
  cfg = {| tunnel.Logger_ := SessionLog (wrap32 (sessCount s + 1));
           tunnel.Inbound := Reverse (config s);
           tunnel.Outbound := true;
           tunnel.Socks := Socks5 (config s);
           tunnel.KeepAlive := KeepAlive (config s) |}.
Proof.
  intros Hin.
  destruct (run_shape s req W)
    as [(_ & Hb & _)
       | [(front & msg & user & s2 & tk & r & _ & _ & Hrun & _ & Hb & _)
         | (P & B & user & s2 & tk & r & Hrecv & _ & Hrun & _ & Hb & _ & _
            & c & _ & _ & ->)]].
  - pose proof (count_zero_not_in _ _ _ Hb Hin). discriminate.
  - rewrite Hrun in Hin. apply in_app_or in Hin as [Hin | [Heq | []]].
    + pose proof (count_zero_not_in _ _ _ Hb Hin). discriminate.
    + discriminate.
  - rewrite Hrun in Hin. apply in_app_or in Hin as [Hin | [Heq | Hin]].
    + pose proof (count_zero_not_in _ _ _ Hb Hin). discriminate.
    + discriminate.
    + apply in_bind_tunnel in Hin
        as [Heq | [Heq | [[Heq _] | Heq]]]; try discriminate.
      * injection Heq as ->.
        rewrite (receives_config _ _ _ _ _ _ Hrecv). reflexivity.
      * destruct (closed_log_debug (SessionLog (wrap32 (sessCount s + 1)))
                    (joined_error (settings.Remotes c) W)) as [line Hline].
        rewrite Hline in Heq. discriminate.
Qed.

Lemma select_reqs_received (t d : Z) (x : option ssh.Request) (pick : bool) :
  Z.max 0 t < Z.max 0 d -> select_reqs (Some (t, x)) d pick = Received x.
Proof.
  intros H. unfold select_reqs.
  destruct (Z.ltb_spec (Z.max 0 t) (Z.max 0 d)); [reflexivity | lia].
Qed.

(** X17. The handler closes the SSH connection on the timeout path and
    nowhere else: a run calls [sshConn.Close] exactly when the handshake and
    the ticket step succeed and the [select] takes the timer. *)
Theorem close_only_on_timeout (s : Server) (req : Request) (W : World) :
  In Close (events_of (handleWebsocket s req W))
  <-> exists sid user s2 tk,
        upgrade W = None /\ handshake W = inr sid
        /\ take_ticket (with_sessCount s (wrap32 (sessCount s + 1))) sid
           = Some (user, s2, tk)
        /\ select_reqs (reqs_ready W) (config_timeout W) (pick_reqs W) = TimedOut.
Proof.
  pose proof (handleWebsocket_cases s req W) as Hcases. cbv zeta in Hcases.
  split.
  - intros Hin.
    destruct (run_shape s req W)
      as [(_ & _ & Hno)
         | [(front & msg & user & s2 & tk & r & _ & _ & Hrun & _ & _ & Hc)
           | (P & B & user & s2 & tk & r & _ & _ & Hrun & _ & _ & Hc & HB & _)]].
    + destruct Hcases
        as [(err & _ & Hrun) | [(err & _ & _ & Hrun) | [(sid & _ & _ & _ & _ & _ & Hrun)
            | (sid & user & s2 & tk & Hup & Hhs & Htk & Hrun)]]].
      * rewrite Hrun in Hin. cbn in Hin.
        repeat (destruct Hin as [Hin | Hin]; [discriminate |]). destruct Hin.
      * rewrite Hrun in Hin. cbn in Hin.
        repeat (destruct Hin as [Hin | Hin]; [discriminate |]). destruct Hin.
      * rewrite Hrun in Hin. cbn in Hin.
        repeat (destruct Hin as [Hin | Hin]; [discriminate |]). destruct Hin.
      * destruct Hrun as [[Hsel _] | [[Hsel Hrun] | (r & Hrecv & _)]].
        -- exists sid, user, s2, tk. repeat split; assumption.
        -- rewrite Hrun in Hin. unfold events_of in Hin. cbn [fst snd] in Hin.
           assert (Hpre : forallb is_setup (session_prefix s req W tk) = true).
           { unfold session_prefix. apply forallb_app_true; [reflexivity |].
             apply forallb_app_true;
               [exact (take_ticket_setup _ _ _ _ _ Htk) | reflexivity]. }
           pose proof (count_zero_not_in _ _ _
                         (count_none is_close is_setup _ ltac:(event_classes) Hpre)
                         Hin).
           discriminate.
        -- exfalso. exact (Hno _ _ _ _ Hrecv).
    + exfalso. rewrite Hrun in Hin. apply in_app_or in Hin as [Hin | [Heq | []]].
      * pose proof (count_zero_not_in _ _ _ Hc Hin). discriminate.
      * discriminate.
    + exfalso. rewrite Hrun in Hin. apply in_app_or in Hin as [Hin | [Heq | Hin]].
      * pose proof (count_zero_not_in _ _ _ Hc Hin). discriminate.
      * discriminate.
      * pose proof (count_zero_not_in _ _ _
                      (count_none is_close is_tunnel _ ltac:(event_classes) HB) Hin).
        discriminate.
  - intros (sid & user & s2 & tk & Hup & Hhs & Htk & Hsel).
    unfold handleWebsocket, config_exchange, events_of.
    rewrite Hup, Hhs, Htk, Hsel. cbn [fst snd].
    apply in_or_app. right. apply in_or_app. right.
    right. right. right. left. reflexivity.
Qed.


(** X19. A request that arrives before the timer fires is always served:
    the run replies to it exactly once, returns, and does not close the
    connection, whatever the [select] would pick on a tie. *)
Theorem request_in_time_is_answered (s : Server) (req : Request) (W : World)
    (sid : string) (user : option settings.User) (s2 : Server)
    (tk : list Event) (t : Z) (r : ssh.Request) :
  upgrade W = None ->
  handshake W = inr sid ->
  take_ticket (with_sessCount s (wrap32 (sessCount s + 1))) sid
  = Some (user, s2, tk) ->
  reqs_ready W = Some (t, Some r) ->
  Z.max 0 t < Z.max 0 (config_timeout W) ->
  handleWebsocket s req W
  = (s2,
     session_prefix s req W tk
     ++ negotiate s2 (SessionLog (wrap32 (sessCount s + 1))) user r W,
     Returned)
  /\ count is_reply (events_of (handleWebsocket s req W)) = 1%nat
  /\ count is_close (events_of (handleWebsocket s req W)) = 0%nat.
Proof.
  intros Hup Hhs Htk Hready Ht.
  assert (Hrecv : receives s W user s2 tk r).
  { split; [exact Hup |]. split; [exists sid; split; assumption |].
    rewrite Hready. apply select_reqs_received. exact Ht. }
  split; [exact (handleWebsocket_receives _ _ _ _ _ _ _ Hrecv) |].
  destruct (run_shape s req W)
    as [(_ & _ & Hno)
       | [(front & msg & _ & _ & _ & _ & _ & _ & -> & Hr & _ & Hc)
         | (P & B & _ & _ & _ & _ & _ & _ & -> & Hr & _ & Hc & HB & _)]].
  - exfalso. exact (Hno _ _ _ _ Hrecv).
  - rewrite !count_app, Hr, Hc. split; reflexivity.
  - rewrite !count_app, !count_cons, Hr, Hc.
    rewrite (count_none is_reply is_tunnel _ ltac:(event_classes) HB).
    rewrite (count_none is_close is_tunnel _ ltac:(event_classes) HB).
    split; reflexivity.
Qed.

Lemma validate_remotes_tagged (s : Server) (id : Z)
    (user : option settings.User) (rs : list settings.Remote)
    (evs : list Event) :
  validate_remotes s (SessionLog id) user rs = Some evs ->
  forallb (tagged id) evs = true.
Proof.
  induction rs as [| x rs IH]; [discriminate |].
  cbn [validate_remotes].
  destruct (match user with
            | Some u => negb (HasAccess u (UserAddr x))
            | None => false
            end).
  { intros [= <-]. cbn. rewrite Z.eqb_refl. reflexivity. }
  destruct (settings.Reverse x && negb (Reverse (config s))).
  { intros [= <-]. cbn. rewrite Z.eqb_refl. reflexivity. }
  destruct (settings.Reverse x && negb (CanListen x)).
  { intros [= <-]. cbn. rewrite Z.eqb_refl. reflexivity. }
  exact IH.
Qed.

Lemma negotiate_tagged (s : Server) (id : Z) (user : option settings.User)
    (r : ssh.Request) (W : World) :
  forallb (tagged id) (negotiate s (SessionLog id) user r W) = true.
Proof.
  unfold negotiate.
  destruct (negb (String.eqb (ssh.Type_ r) "config")).
  { cbn. rewrite Z.eqb_refl. reflexivity. }
  destruct (DecodeConfig (ssh.Payload r)) as [c |].
  2:{ cbn. rewrite Z.eqb_refl. reflexivity. }
  apply forallb_app_true.
  - unfold version_log.
    destruct (negb (String.eqb (settings.Version c) BuildVersion)); [| reflexivity].
    cbn. rewrite Z.eqb_refl. reflexivity.
  - unfold validate_and_bind.
    destruct (validate_remotes s (SessionLog id) user (settings.Remotes c))
      as [evs |] eqn:Hv.
    + exact (validate_remotes_tagged _ _ _ _ _ Hv).
    + unfold bind_tunnel.
      destruct (closed_log_debug (SessionLog id)
                  (joined_error (settings.Remotes c) W)) as [line ->].
      destruct (length (settings.Reversed (settings.Remotes c) true) =? 0)%nat;
        cbn; rewrite Z.eqb_refl; reflexivity.
Qed.

(** X20. Every line a run writes through a session logger carries the
    session number that run took from the counter, on every path. *)
Theorem session_lines_tagged (s : Server) (req : Request) (W : World)
    (i : Z) (lv : Level) (line : string) :
  In (Log (SessionLog i) lv line) (events_of (handleWebsocket s req W)) ->
  i = wrap32 (sessCount s + 1)
  /\ i = sessCount (server_of (handleWebsocket s req W)).
Proof.
  intros Hin.
  assert (Hall : forallb (tagged (wrap32 (sessCount s + 1)))
                   (events_of (handleWebsocket s req W)) = true).
  { pose proof (handleWebsocket_cases s req W) as Hcases. cbv zeta in Hcases.
    destruct Hcases
      as [(err & _ & ->) | [(err & _ & _ & ->) | [(sid & _ & _ & _ & _ & _ & ->)
          | (sid & user & s2 & tk & _ & _ & Htk & Hrun)]]];
      try (cbn; rewrite ?Z.eqb_refl; reflexivity).
    assert (Hpre : forallb (tagged (wrap32 (sessCount s + 1)))
                     (session_prefix s req W tk) = true).
    { destruct (take_ticket_cases _ _ _ _ _ Htk)
        as [(_ & _ & ->) | (u & _ & _ & _ & ->)];
        cbn; rewrite ?Z.eqb_refl; reflexivity. }
    destruct Hrun as [[_ ->] | [[_ ->] | (r & _ & ->)]];
      unfold events_of; cbn [fst snd].
    - apply forallb_app_true; [exact Hpre |].
      cbn. rewrite Z.eqb_refl. reflexivity.
    - exact Hpre.
    - apply forallb_app_true; [exact Hpre | apply negotiate_tagged]. }
  rewrite List.forallb_forall in Hall. specialize (Hall _ Hin). cbn in Hall.
  apply Z.eqb_eq in Hall. split; [exact Hall |].
  destruct (handleWebsocket_server s req W) as [-> | (sid & u & _ & _ & _ & _ & ->)];
    exact Hall.
Qed.

Lemma handleWebsocket_no_http (s : Server) (req : Request) (W : World) :
  count is_http (events_of (handleWebsocket s req W)) = 0%nat.
Proof.
  pose proof (handleWebsocket_cases s req W) as Hcases. cbv zeta in Hcases.
  destruct Hcases
    as [(err & _ & ->) | [(err & _ & _ & ->) | [(sid & _ & _ & _ & _ & _ & ->)
        | (sid & user & s2 & tk & _ & _ & Htk & Hrun)]]];
    try reflexivity.
  assert (Hpre : forallb is_setup (session_prefix s req W tk) = true).
  { unfold session_prefix. apply forallb_app_true; [reflexivity |].
    apply forallb_app_true; [exact (take_ticket_setup _ _ _ _ _ Htk) | reflexivity]. }
  destruct Hrun as [[_ ->] | [[_ ->] | (r & _ & ->)]];
    unfold events_of; cbn [fst snd]; rewrite ?count_app;
    rewrite (count_none is_http is_setup _ ltac:(event_classes) Hpre);
    try reflexivity.
  exact (count_none is_http is_exchange _ ltac:(event_classes)
           (negotiate_exchange _ _ _ _ _)).
Qed.

(** X21. A request is either tunnelled or answered over HTTP, never both:
    a run that attempts the upgrade makes no call on the response writer or
    on the reverse-proxy delegate, and a run that does not attempt it makes
    no other call than info lines of the server logger and calls on the
    response writer or the delegate, and leaves the server unchanged. *)
Theorem tunnel_or_http (s : Server) (r : Request) (W : World) :
  (In Upgrade (events_of (handleClientHandler s r W)) ->
   count is_http (events_of (handleClientHandler s r W)) = 0%nat)
  /\ (~ In Upgrade (events_of (handleClientHandler s r W)) ->
      server_of (handleClientHandler s r W) = s
      /\ forallb (fun e => is_http e || is_info e)
           (events_of (handleClientHandler s r W)) = true
      /\ (1 <= count is_http (events_of (handleClientHandler s r W)))%nat).
Proof.
  split.
  - unfold handleClientHandler.
    destruct (String.eqb _ "websocket" && HasPrefix _ "penguin-").
    + destruct (String.eqb (Psk (config s)) "" || String.eqb _ (Psk (config s))).
      * destruct (String.eqb _ ProtocolVersion).
        -- intros _. apply handleWebsocket_no_http.
        -- unfold events_of. cbn [fst snd]. intros [H | H];
             [discriminate | exfalso; exact (fallthrough_no_upgrade s r H)].
      * unfold events_of. cbn [fst snd]. intros [H | H];
          [discriminate | exfalso; exact (fallthrough_no_upgrade s r H)].
    + unfold events_of. cbn [fst snd]. intros H.
      exfalso. exact (fallthrough_no_upgrade s r H).
  - intros Hno. destruct (dispatch_shape s r W Hno) as (logs & Hlogs & ->).
    unfold server_of, events_of. cbn [fst snd].
    split; [reflexivity |].
    assert (Hfall : forallb (fun e => is_http e || is_info e) (fallthrough s r) = true
                    /\ (1 <= count is_http (fallthrough s r))%nat).
    { unfold fallthrough.
      destruct (reverseProxy s); destruct (negb (Obfs (config s)));
        repeat match goal with
               | |- context [String.eqb ?a ?b] => destruct (String.eqb a b)
               end; cbn; split; (reflexivity || lia). }
    split.
    + apply forallb_app_true; [| exact (proj1 Hfall)].
      clear - Hlogs. induction Hlogs as [| e logs [line ->] _ IH];
        [reflexivity | exact IH].
    + rewrite count_app. destruct Hfall as [_ Hfall]. lia.
Qed.

End Handler.

(** ** The handler on concrete runs *)

Local Abbreviation demo_http :=
  (handleClientHandler "1.2.3" "penguin-v1" ascii_ToLower demo_ParseDuration
     Sprintf demo_DecodeConfig demo_UserAddr demo_Remote_String demo_CanListen
     demo_HasAccess).

Local Abbreviation demo_ws :=
  (handleWebsocket "1.2.3" demo_ParseDuration Sprintf demo_DecodeConfig
     demo_UserAddr demo_Remote_String demo_CanListen demo_HasAccess).

Local Abbreviation demo_upgrade := (demo_request "/health" (demo_headers ["right"])).

Local Abbreviation demo_config_world b :=
  (demo_world (Some (5, Some (demo_ssh_request "config" b)))).

(** Scenario S3: an upgrade request with the wrong key is answered on the
    non-tunnel path. *)
Lemma psk_mismatch_falls_through_witness :
  demo_http demo_server (demo_request "/health" (demo_headers ["wrong"]))
    (demo_world None)
  = (demo_server,
     [Log ServerLog Info
        "ignoring client connection with incorrect or missing PSK 'wrong'";
      Write (bytes ("OK" +:+ LF))],
     Returned).
Proof.
  refine (proj1 (psk_mismatch_falls_through "1.2.3" "penguin-v1" ascii_ToLower
            demo_ParseDuration Sprintf demo_DecodeConfig demo_UserAddr
            demo_Remote_String demo_CanListen demo_HasAccess
            demo_server (demo_request "/health" (demo_headers ["wrong"]))
            (demo_world None) _ _ _ _)).
  - discriminate.
  - reflexivity.
  - reflexivity.
  - right. vm_compute. discriminate.
Defined.

(** Scenario S1: the health probe with obfuscation off. *)
Lemma fallthrough_precedence_witness :
  response_of (events_of (demo_http demo_server (demo_request "/health" ∅)
                            (demo_world None)))
  = {| status := Some 200; body := bytes ("OK" +:+ LF) |}.
Proof.
  destruct (fallthrough_precedence "1.2.3" "penguin-v1" ascii_ToLower
              demo_ParseDuration Sprintf demo_DecodeConfig demo_UserAddr
              demo_Remote_String demo_CanListen demo_HasAccess
              demo_server (demo_request "/health" ∅) (demo_world None))
    as (logs & _ & _ & _ & _ & Hhealth & _).
  - vm_compute. intros [H | []]. discriminate H.
  - apply Hhealth; reflexivity.
Defined.

Lemma health_version_any_method_witness :
  response_of (events_of (demo_http demo_server
                            (with_Method (demo_request "/health" ∅) "POST")
                            (demo_world None)))
  = {| status := Some 200; body := bytes ("OK" +:+ LF) |}.
Proof.
  refine (proj1 (proj2 (health_version_any_method "1.2.3" "penguin-v1"
            ascii_ToLower demo_ParseDuration Sprintf demo_DecodeConfig
            demo_UserAddr demo_Remote_String demo_CanListen demo_HasAccess
            demo_server (demo_request "/health" ∅) (demo_world None) "POST"
            _ _ _)) _).
  - reflexivity.
  - reflexivity.
  - vm_compute. intros [H | []]. discriminate H.
  - reflexivity.
Defined.

(** A first request of type ["ping"] is rejected. *)
Lemma config_request_first_witness :
  events_of (demo_ws demo_server demo_upgrade
               (demo_world (Some (5, Some (demo_ssh_request "ping" Byte.x01)))))
  = [Upgrade;
     Log (SessionLog 7) Debug "handshaking with 192.0.2.7:51234...";
     NewServerConn;
     Log (SessionLog 7) Debug "verifying configuration";
     After 10000000000;
     Log (SessionLog 7) Debug "failed: expecting config request";
     Reply false (bytes "expecting config request")].
Proof.
  destruct (config_request_first "1.2.3" demo_ParseDuration Sprintf
              demo_DecodeConfig demo_UserAddr demo_Remote_String demo_CanListen
              demo_HasAccess demo_server demo_upgrade
              (demo_world (Some (5, Some (demo_ssh_request "ping" Byte.x01))))
              None (with_sessCount demo_server 7) []
              (demo_ssh_request "ping" Byte.x01)) as [Hwrong _].
  - split; [reflexivity |].
    split; [exists "sid-1"; split; reflexivity | reflexivity].
  - destruct Hwrong as [Hrun _]; [discriminate |].
    rewrite Hrun. reflexivity.
Defined.

(** A reverse remote the server cannot listen on, after a remote that
    passes. *)
Lemma remotes_validated_in_order_witness :
  events_of (demo_ws demo_server_reverse demo_upgrade (demo_config_world Byte.x03))
  = [Upgrade;
     Log (SessionLog 7) Debug "handshaking with 192.0.2.7:51234...";
     NewServerConn; SessionsGet "sid-1"; SessionsDel "sid-1";
     Log (SessionLog 7) Debug "verifying configuration";
     After 10000000000;
     Log (SessionLog 7) Info
       "client version (<unknown>) differs from server version (1.2.3)";
     Log (SessionLog 7) Debug
       "failed: server cannot listen on R:0.0.0.0:80=>localhost:25";
     Reply false (bytes "server cannot listen on R:0.0.0.0:80=>localhost:25")].
Proof.
  destruct (remotes_validated_in_order "1.2.3" demo_ParseDuration Sprintf
              demo_DecodeConfig demo_UserAddr demo_Remote_String demo_CanListen
              demo_HasAccess demo_server_reverse demo_upgrade
              (demo_config_world Byte.x03) (Some demo_user)
              (with_sessions (with_sessCount demo_server_reverse 7) ∅)
              [SessionsGet "sid-1"; SessionsDel "sid-1"]
              (demo_ssh_request "config" Byte.x03)
              {| settings.Version := "";
                 settings.Remotes := [demo_forward; demo_busy] |})
    as [Hfirst _].
  - split; [| split; reflexivity].
    split; [reflexivity |].
    split; [exists "sid-1"; split; reflexivity | reflexivity].
  - destruct (Hfirst [demo_forward] demo_busy []) as (_ & _ & Hlisten);
      [reflexivity | reflexivity |].
    rewrite Hlisten; reflexivity.
Defined.

(** No request at all: the timer of 10 seconds fires. *)
Lemma config_timeout_closes_witness :
  demo_ws demo_server demo_upgrade (demo_world None)
  = (with_sessCount demo_server 7,
     [Upgrade;
      Log (SessionLog 7) Debug "handshaking with 192.0.2.7:51234...";
      NewServerConn;
      Log (SessionLog 7) Debug "verifying configuration";
      After 10000000000;
      Log (SessionLog 7) Debug "timeout waiting for configuration"; Close],
     Returned).
Proof.
  refine (proj1 (proj2 (proj2 (config_timeout_closes "1.2.3" demo_ParseDuration
            Sprintf demo_DecodeConfig demo_UserAddr demo_Remote_String
            demo_CanListen demo_HasAccess demo_server demo_upgrade
            (demo_world None) "sid-1" None (with_sessCount demo_server 7) []
            _ _ _ _)))).
  - reflexivity.
  - reflexivity.
  - reflexivity.
  - left. reflexivity.
Defined.

(** Scenario S5: a reverse remote on a server that does not permit them is
    answered negatively, and the run ends without a [Close]. *)
Lemma fault_reply_without_close_witness :
  outcome_of (demo_ws demo_server demo_upgrade (demo_config_world Byte.x02))
  = Returned
  /\ count is_close
       (events_of (demo_ws demo_server demo_upgrade (demo_config_world Byte.x02)))
     = 0%nat.
Proof.
  destruct (fault_reply_without_close "1.2.3" demo_ParseDuration Sprintf
              demo_DecodeConfig demo_UserAddr demo_Remote_String demo_CanListen
              demo_HasAccess demo_server demo_upgrade
              (demo_config_world Byte.x02) None (with_sessCount demo_server 7) []
              (demo_ssh_request "config" Byte.x02)) as (Hout & _ & Hclose).
  - split; [reflexivity |].
    split; [exists "sid-1"; split; reflexivity | reflexivity].
  - right. right. eexists. split; reflexivity.
  - split; [exact Hout | exact Hclose].
Defined.

(** A server with two users and the ticket of the session in the store. *)
Lemma ticket_consumed_once_witness :
  sessions (server_of (demo_ws demo_server_users demo_upgrade (demo_world None)))
  !! "sid-1" = None
  /\ count is_ticket_get
       (events_of (demo_ws demo_server_users demo_upgrade (demo_world None)))
     = 1%nat.
Proof.
  destruct (ticket_consumed_once "1.2.3" demo_ParseDuration Sprintf
              demo_DecodeConfig demo_UserAddr demo_Remote_String demo_CanListen
              demo_HasAccess demo_server_users demo_upgrade (demo_world None)
              "sid-1") as [_ Hsome].
  - vm_compute. lia.
  - reflexivity.
  - reflexivity.
  - destruct (Hsome demo_stranger) as (_ & _ & Hgone & Hget & _);
      [reflexivity |].
    split; [exact Hgone | exact Hget].
Defined.

(** Scenario S6 up to the close: the sub-tasks end on an EOF. *)
Lemma close_log_classification_witness :
  closed_log (SessionLog 7)
    (joined_error [demo_forward; demo_reverse] (demo_config_world Byte.x02))
  = Log (SessionLog 7) Debug "closed connection".
Proof.
  destruct (close_log_classification "1.2.3" demo_ParseDuration Sprintf
              demo_DecodeConfig demo_UserAddr demo_Remote_String demo_CanListen
              demo_HasAccess demo_server_reverse demo_upgrade
              (demo_config_world Byte.x02) (Some demo_user)
              (with_sessions (with_sessCount demo_server_reverse 7) ∅)
              [SessionsGet "sid-1"; SessionsDel "sid-1"]
              (demo_ssh_request "config" Byte.x02)
              {| settings.Version := "0.0.1";
                 settings.Remotes := [demo_forward; demo_reverse] |})
    as (_ & Hclean & _).
  - split; [| split; reflexivity].
    split; [reflexivity |].
    split; [exists "sid-1"; split; reflexivity | reflexivity].
  - reflexivity.
  - apply Hclean. right. exists "unexpected ". reflexivity.
Defined.

(** Scenario S4: the version mismatch is logged and the session goes on. *)
Lemma version_mismatch_advisory_witness :
  count is_info
    (events_of (demo_ws demo_server_reverse demo_upgrade (demo_config_world Byte.x02)))
  = 1%nat
  /\ count is_bind
       (events_of (demo_ws demo_server_reverse demo_upgrade
                     (demo_config_world Byte.x02)))
     = 3%nat.
Proof.
  destruct (version_mismatch_advisory "1.2.3" demo_ParseDuration Sprintf
              demo_DecodeConfig demo_UserAddr demo_Remote_String demo_CanListen
              demo_HasAccess demo_server_reverse demo_upgrade
              (demo_config_world Byte.x02) (Some demo_user)
              (with_sessions (with_sessCount demo_server_reverse 7) ∅)
              [SessionsGet "sid-1"; SessionsDel "sid-1"]
              (demo_ssh_request "config" Byte.x02)
              {| settings.Version := "0.0.1";
                 settings.Remotes := [demo_forward; demo_reverse] |})
    as (Hdiff & _ & _).
  - split; [| split; reflexivity].
    split; [reflexivity |].
    split; [exists "sid-1"; split; reflexivity | reflexivity].
  - rewrite Hdiff by discriminate. split; reflexivity.
Defined.

(** ** Checks of the auxiliary functions on examples *)

Example canonical_upgrade : CanonicalMIMEHeaderKey "Upgrade" = "Upgrade".
Proof. reflexivity. Qed.

Example canonical_protocol :
  CanonicalMIMEHeaderKey "Sec-WebSocket-Protocol" = "Sec-Websocket-Protocol".
Proof. reflexivity. Qed.

Example canonical_psk : CanonicalMIMEHeaderKey "X-Penguin-Psk" = "X-Penguin-Psk".
Proof. reflexivity. Qed.

Example sprintf_two :
  Sprintf "client version (%s) differs from server version (%s)" ["a"; "b"]
  = "client version (a) differs from server version (b)".
Proof. reflexivity. Qed.

Example has_suffix_eof : HasSuffix "unexpected EOF" "EOF" = true.
Proof. reflexivity. Qed.

Example has_suffix_short : HasSuffix "OF" "EOF" = false.
Proof. reflexivity. Qed.

Example has_prefix_penguin : HasPrefix "penguin-v1" "penguin-" = true.
Proof. reflexivity. Qed.

Example wrap32_max : wrap32 (2147483647 + 1) = -2147483648.
Proof. reflexivity. Qed.

Example select_tie_picks :
  select_reqs (Some (7, None)) 7 false = TimedOut
  /\ select_reqs (Some (7, None)) 7 true = Received None.
Proof. split; reflexivity. Qed.

(** An undecodable config, with the error text being the formatted
    message. *)
Example undecodable_config_run :
  events_of (demo_ws demo_server demo_upgrade (demo_config_world Byte.x09))
  = [Upgrade;
     Log (SessionLog 7) Debug "handshaking with 192.0.2.7:51234...";
     NewServerConn;
     Log (SessionLog 7) Debug "verifying configuration";
     After 10000000000;
     Log (SessionLog 7) Debug "failed: invalid config";
     Reply false (bytes "invalid config")].
Proof. reflexivity. Qed.

(** A request channel closed before any request delivers nil, and the
    handler panics on it. *)
Example closed_channel_run :
  outcome_of (demo_ws demo_server demo_upgrade (demo_world (Some (5, None))))
  = Panicked "invalid memory address or nil pointer dereference".
Proof. reflexivity. Qed.

(** Scenario S2: the health probe with obfuscation on. *)
Example health_obfuscated_run :
  response_of (events_of (demo_http demo_server_reverse (demo_request "/health" ∅)
                            (demo_world None)))
  = {| status := Some 404; body := bytes "Not found" |}.
Proof. reflexivity. Qed.

(** Scenario S6 up to the close. *)
Example reverse_bind_run :
  events_of (demo_ws demo_server_reverse demo_upgrade (demo_config_world Byte.x02))
  = [Upgrade;
     Log (SessionLog 7) Debug "handshaking with 192.0.2.7:51234...";
     NewServerConn; SessionsGet "sid-1"; SessionsDel "sid-1";
     Log (SessionLog 7) Debug "verifying configuration";
     After 10000000000;
     Log (SessionLog 7) Info
       "client version (0.0.1) differs from server version (1.2.3)";
     Reply true [];
     TunnelNew {| tunnel.Logger_ := SessionLog 7; tunnel.Inbound := true;
                  tunnel.Outbound := true; tunnel.Socks := false;
                  tunnel.KeepAlive := 0 |};
     BindSSH; BindRemotes [demo_reverse];
     Log (SessionLog 7) Debug "closed connection"].
Proof. reflexivity. Qed.

(** ** The further properties on concrete runs *)

Lemma upgrade_exactly_when_witness :
  In Upgrade (events_of (demo_http demo_server demo_upgrade (demo_world None))).
Proof.
  pose proof (upgrade_exactly_when "1.2.3" "penguin-v1" ascii_ToLower
                demo_ParseDuration Sprintf demo_DecodeConfig demo_UserAddr
                demo_Remote_String demo_CanListen demo_HasAccess
                demo_server demo_upgrade (demo_world None)) as H.
  cbv zeta in H. destruct H as [[_ H] _]. apply H.
  split; [reflexivity |]. split; [reflexivity |].
  split; [right; reflexivity | reflexivity].
Defined.

(** A client speaking another protocol version. *)
Lemma protocol_mismatch_falls_through_witness :
  handleClientHandler "1.2.3" "penguin-v2" ascii_ToLower demo_ParseDuration
    Sprintf demo_DecodeConfig demo_UserAddr demo_Remote_String demo_CanListen
    demo_HasAccess demo_server demo_upgrade (demo_world None)
  = (demo_server,
     [Log ServerLog Info
        "ignoring client connection using protocol 'penguin-v1', expected 'penguin-v2'";
      Write (bytes ("OK" +:+ LF))],
     Returned).
Proof.
  refine (protocol_mismatch_falls_through "1.2.3" "penguin-v2" ascii_ToLower
            demo_ParseDuration Sprintf demo_DecodeConfig demo_UserAddr
            demo_Remote_String demo_CanListen demo_HasAccess
            demo_server demo_upgrade (demo_world None) _ _ _ _).
  - reflexivity.
  - reflexivity.
  - right. reflexivity.
  - vm_compute. discriminate.
Defined.

Lemma non_candidate_is_silent_witness :
  demo_http demo_server (demo_request "/version" ∅) (demo_world None)
  = (demo_server, [Write (bytes "1.2.3")], Returned).
Proof.
  refine (proj1 (non_candidate_is_silent "1.2.3" "penguin-v1" ascii_ToLower
            demo_ParseDuration Sprintf demo_DecodeConfig demo_UserAddr
            demo_Remote_String demo_CanListen demo_HasAccess
            demo_server (demo_request "/version" ∅) (demo_world None) _)).
  left. vm_compute. discriminate.
Defined.

Lemma session_counter_advances_witness :
  sessCount (server_of (demo_ws demo_server demo_upgrade (demo_world None))) = 7.
Proof.
  rewrite (proj1 (session_counter_advances "1.2.3" demo_ParseDuration Sprintf
                    demo_DecodeConfig demo_UserAddr demo_Remote_String
                    demo_CanListen demo_HasAccess demo_server demo_upgrade
                    (demo_world None))).
  reflexivity.
Defined.

Lemma consecutive_sessions_differ_witness :
  sessCount (server_of (demo_ws demo_server demo_upgrade (demo_world None)))
  = 6 + 1.
Proof.
  refine (proj1 (proj2 (consecutive_sessions_differ "1.2.3" demo_ParseDuration
            Sprintf demo_DecodeConfig demo_UserAddr demo_Remote_String
            demo_CanListen demo_HasAccess demo_server demo_upgrade demo_upgrade
            (demo_world None) (demo_world None))) _).
  unfold demo_server. cbn [sessCount]. lia.
Defined.

(** The ticket of another session stays in the store. *)
Lemma other_tickets_kept_witness :
  sessions (server_of (demo_ws
                         (with_sessions demo_server_users
                            (insert "sid-2" demo_user (sessions demo_server_users)))
                         demo_upgrade (demo_world None)))
  !! "sid-2" = Some demo_user.
Proof.
  rewrite (other_tickets_kept "1.2.3" demo_ParseDuration Sprintf
             demo_DecodeConfig demo_UserAddr demo_Remote_String demo_CanListen
             demo_HasAccess
             (with_sessions demo_server_users
                (insert "sid-2" demo_user (sessions demo_server_users)))
             demo_upgrade (demo_world None) "sid-2").
  - reflexivity.
  - left. discriminate.
Defined.


Lemma no_users_no_ticket_witness :
  sessions (server_of (demo_ws demo_server demo_upgrade (demo_config_world Byte.x01)))
  = sessions demo_server.
Proof.
  refine (proj1 (no_users_no_ticket "1.2.3" demo_ParseDuration Sprintf
            demo_DecodeConfig demo_UserAddr demo_Remote_String demo_CanListen
            demo_HasAccess demo_server demo_upgrade (demo_config_world Byte.x01) _)).
  reflexivity.
Defined.

Lemma reply_exactly_once_witness :
  count is_reply
    (events_of (demo_ws demo_server_reverse demo_upgrade (demo_config_world Byte.x02)))
  = 1%nat.
Proof.
  apply (proj2 (reply_exactly_once "1.2.3" demo_ParseDuration Sprintf
                  demo_DecodeConfig demo_UserAddr demo_Remote_String
                  demo_CanListen demo_HasAccess demo_server_reverse demo_upgrade
                  (demo_config_world Byte.x02))).
  exists (Some demo_user),
    (with_sessions (with_sessCount demo_server_reverse 7) ∅),
    [SessionsGet "sid-1"; SessionsDel "sid-1"],
    (demo_ssh_request "config" Byte.x02).
  split; [reflexivity |].
  split; [exists "sid-1"; split; reflexivity | reflexivity].
Defined.

Lemma bind_after_positive_reply_witness :
  In (Reply true [])
    [Upgrade;
     Log (SessionLog 7) Debug "handshaking with 192.0.2.7:51234...";
     NewServerConn; SessionsGet "sid-1"; SessionsDel "sid-1";
     Log (SessionLog 7) Debug "verifying configuration";
     After 10000000000;
     Log (SessionLog 7) Info
       "client version (0.0.1) differs from server version (1.2.3)";
     Reply true []].
Proof.
  refine (bind_after_positive_reply "1.2.3" demo_ParseDuration Sprintf
            demo_DecodeConfig demo_UserAddr demo_Remote_String demo_CanListen
            demo_HasAccess demo_server_reverse demo_upgrade
            (demo_config_world Byte.x02) _
            [BindSSH; BindRemotes [demo_reverse];
             Log (SessionLog 7) Debug "closed connection"]
            (TunnelNew {| tunnel.Logger_ := SessionLog 7; tunnel.Inbound := true;
                          tunnel.Outbound := true; tunnel.Socks := false;
                          tunnel.KeepAlive := 0 |}) _ _).
  - reflexivity.
  - reflexivity.
Defined.

Lemma negative_reply_is_final_witness :
  count is_bind
    (events_of (demo_ws demo_server demo_upgrade
                  (demo_world (Some (5, Some (demo_ssh_request "ping" Byte.x01))))))
  = 0%nat.
Proof.
  refine (proj1 (proj2 (proj2 (negative_reply_is_final "1.2.3" demo_ParseDuration
            Sprintf demo_DecodeConfig demo_UserAddr demo_Remote_String
            demo_CanListen demo_HasAccess demo_server demo_upgrade
            (demo_world (Some (5, Some (demo_ssh_request "ping" Byte.x01))))
            (bytes "expecting config request") _)))).
  vm_compute. do 6 right. left. reflexivity.
Defined.

Lemma positive_reply_iff_all_pass_witness :
  In (Reply true [])
    (events_of (demo_ws demo_server_reverse demo_upgrade (demo_config_world Byte.x02))).
Proof.
  apply (proj2 (positive_reply_iff_all_pass "1.2.3" demo_ParseDuration Sprintf
                  demo_DecodeConfig demo_UserAddr demo_Remote_String
                  demo_CanListen demo_HasAccess demo_server_reverse demo_upgrade
                  (demo_config_world Byte.x02) [])).
  split; [reflexivity |].
  exists (Some demo_user),
    (with_sessions (with_sessCount demo_server_reverse 7) ∅),
    [SessionsGet "sid-1"; SessionsDel "sid-1"],
    (demo_ssh_request "config" Byte.x02),
    {| settings.Version := "0.0.1";
       settings.Remotes := [demo_forward; demo_reverse] |}.
  split; [| reflexivity].
  split; [| split; reflexivity].
  split; [reflexivity |].
  split; [exists "sid-1"; split; reflexivity | reflexivity].
Defined.

Lemma bound_remotes_are_checked_witness :
  exists user s2 tk r c,
    decodes demo_ParseDuration demo_DecodeConfig demo_server_reverse
      (demo_config_world Byte.x02) user s2 tk r c
    /\ [demo_reverse] = settings.Reversed (settings.Remotes c) true
    /\ [demo_reverse] <> []
    /\ Reverse (config demo_server_reverse) = true
    /\ Forall (fun x => In x (settings.Remotes c)
                        /\ settings.Reverse x = true
                        /\ demo_CanListen x = true
                        /\ access_ok demo_UserAddr demo_HasAccess user x = true)
         [demo_reverse].
Proof.
  refine (bound_remotes_are_checked "1.2.3" demo_ParseDuration Sprintf
            demo_DecodeConfig demo_UserAddr demo_Remote_String demo_CanListen
            demo_HasAccess demo_server_reverse demo_upgrade
            (demo_config_world Byte.x02) [demo_reverse] _).
  vm_compute. do 11 right. left. reflexivity.
Defined.

Lemma reverse_remote_rejected_witness :
  count is_bind
    (events_of (demo_ws demo_server demo_upgrade (demo_config_world Byte.x02)))
  = 0%nat.
Proof.
  refine (proj1 (proj2 (proj2 (reverse_remote_rejected "1.2.3" demo_ParseDuration
            Sprintf demo_DecodeConfig demo_UserAddr demo_Remote_String
            demo_CanListen demo_HasAccess demo_server demo_upgrade
            (demo_config_world Byte.x02) None (with_sessCount demo_server 7) []
            (demo_ssh_request "config" Byte.x02)
            {| settings.Version := "0.0.1";
               settings.Remotes := [demo_forward; demo_reverse] |} _ _ _)))).
  - split; [| split; reflexivity].
    split; [reflexivity |].
    split; [exists "sid-1"; split; reflexivity | reflexivity].
  - reflexivity.
  - reflexivity.
Defined.

Lemma forward_only_config_accepted_witness :
  events_of (demo_ws demo_server demo_upgrade (demo_config_world Byte.x01))
  = [Upgrade;
     Log (SessionLog 7) Debug "handshaking with 192.0.2.7:51234...";
     NewServerConn;
     Log (SessionLog 7) Debug "verifying configuration";
     After 10000000000;
     Reply true [];
     TunnelNew {| tunnel.Logger_ := SessionLog 7; tunnel.Inbound := false;
                  tunnel.Outbound := true; tunnel.Socks := false;
                  tunnel.KeepAlive := 0 |};
     BindSSH;
     Log (SessionLog 7) Debug "closed connection"].
Proof.
  rewrite (forward_only_config_accepted "1.2.3" demo_ParseDuration Sprintf
             demo_DecodeConfig demo_UserAddr demo_Remote_String demo_CanListen
             demo_HasAccess demo_server demo_upgrade (demo_config_world Byte.x01)
             None (with_sessCount demo_server 7) []
             (demo_ssh_request "config" Byte.x01)
             {| settings.Version := "1.2.3"; settings.Remotes := [demo_forward] |}).
  - reflexivity.
  - reflexivity.
  - split; [| split; reflexivity].
    split; [reflexivity |].
    split; [exists "sid-1"; split; reflexivity | reflexivity].
  - reflexivity.
Defined.

Lemma tunnel_follows_policy_witness :
  {| tunnel.Logger_ := SessionLog 7; tunnel.Inbound := true;
     tunnel.Outbound := true; tunnel.Socks := false; tunnel.KeepAlive := 0 |}
  = {| tunnel.Logger_ := SessionLog (wrap32 (sessCount demo_server_reverse + 1));
       tunnel.Inbound := Reverse (config demo_server_reverse);
       tunnel.Outbound := true;
       tunnel.Socks := Socks5 (config demo_server_reverse);
       tunnel.KeepAlive := KeepAlive (config demo_server_reverse) |}.
Proof.
  refine (tunnel_follows_policy "1.2.3" demo_ParseDuration Sprintf
            demo_DecodeConfig demo_UserAddr demo_Remote_String demo_CanListen
            demo_HasAccess demo_server_reverse demo_upgrade
            (demo_config_world Byte.x02) _ _).
  vm_compute. do 9 right. left. reflexivity.
Defined.

Lemma close_only_on_timeout_witness :
  In Close (events_of (demo_ws demo_server demo_upgrade (demo_world None))).
Proof.
  apply (proj2 (close_only_on_timeout "1.2.3" demo_ParseDuration Sprintf
                  demo_DecodeConfig demo_UserAddr demo_Remote_String
                  demo_CanListen demo_HasAccess demo_server demo_upgrade
                  (demo_world None))).
  exists "sid-1", None, (with_sessCount demo_server 7), [].
  repeat split.
Defined.


Lemma request_in_time_is_answered_witness :
  count is_reply
    (events_of (demo_ws demo_server demo_upgrade (demo_config_world Byte.x01)))
  = 1%nat
  /\ count is_close
       (events_of (demo_ws demo_server demo_upgrade (demo_config_world Byte.x01)))
     = 0%nat.
Proof.
  refine (proj2 (request_in_time_is_answered "1.2.3" demo_ParseDuration Sprintf
            demo_DecodeConfig demo_UserAddr demo_Remote_String demo_CanListen
            demo_HasAccess demo_server demo_upgrade (demo_config_world Byte.x01)
            "sid-1" None (with_sessCount demo_server 7) [] 5
            (demo_ssh_request "config" Byte.x01) _ _ _ _ _)).
  - reflexivity.
  - reflexivity.
  - reflexivity.
  - reflexivity.
  - reflexivity.
Defined.

Lemma session_lines_tagged_witness :
  7 = wrap32 (sessCount demo_server + 1)
  /\ 7 = sessCount (server_of (demo_ws demo_server demo_upgrade (demo_world None))).
Proof.
  refine (session_lines_tagged "1.2.3" demo_ParseDuration Sprintf
            demo_DecodeConfig demo_UserAddr demo_Remote_String demo_CanListen
            demo_HasAccess demo_server demo_upgrade (demo_world None)
            7 Debug "verifying configuration" _).
  vm_compute. do 3 right. left. reflexivity.
Defined.

Lemma tunnel_or_http_witness :
  count is_http
    (events_of (demo_http demo_server demo_upgrade (demo_world None)))
  = 0%nat.
Proof.
  apply (proj1 (tunnel_or_http "1.2.3" "penguin-v1" ascii_ToLower
                  demo_ParseDuration Sprintf demo_DecodeConfig demo_UserAddr
                  demo_Remote_String demo_CanListen demo_HasAccess
                  demo_server demo_upgrade (demo_world None))).
  vm_compute. left. reflexivity.
Defined.
